(** * Conversation resolution and message delivery of the chat screens

    A shallow embedding of [src/chat.jsx] (the [ChatScreen] component: the
    effect that looks a chat document up and listens to its messages, and
    the [onSend] callback and the sign-in effect), of the new-chat
    screen ([fetchUsers], the search and the route it pushes) and of the
    booking history screen of [src/history.jsx].

    The document store the screens talk to is modelled as an explicit
    state: the [chats] collection is a finite map from document id to
    chat document, each [messages] subcollection is a log in append
    order.  The callbacks are written in a small state-and-exception
    monad over that store and the screen's React state, so that a
    rejected store call aborts the rest of an [async] callback exactly
    as a rejected [await] does. *)

From stdpp Require Import gmap strings list fin_maps sorting.
From Stdlib Require Import ZArith Ascii.
From Stdlib Require OrdersEx.

Local Open Scope Z_scope.
Local Open Scope string_scope.

(** ** JavaScript values and operators used by the screens *)
Module Js.

(** An optional string: [None] stands for [undefined] / [null]. *)
Definition truthy (v : option string) : bool :=
  match v with
  | Some s => negb (bool_decide (s = ""))
  | None => false
  end.

(** [a || b] on optional strings. *)
Definition or (a b : option string) : option string :=
  if truthy a then a else b.

(** Default comparison of [Array.prototype.sort]: by code units.  The
    ids compared here are ASCII, where the order of the code units and
    the order of the bytes of a [string] are the same. *)
Definition before (a b : string) : bool := String.ltb a b.

Fixpoint sort_insert (a : string) (l : list string) : list string :=
  match l with
  | [] => [a]
  | x :: l' => if before x a then x :: sort_insert a l' else a :: x :: l'
  end.

(** [arr.sort()] without a comparator, on an array of strings. *)
Definition sort (l : list string) : list string :=
  foldr sort_insert [] l.

(** The value of a document field that is expected to hold a
    timestamp. *)
Inductive field :=
| Undefined
| Null
| Timestamp (t : Z)
| Other (s : string).

Inductive error :=
| TypeError (what : string)
| Rejected (call : string).

(** How a callback ends: normally, or by throwing (for an [async]
    function: the returned promise is fulfilled or rejected). *)
Inductive outcome (A : Type) :=
| Fulfilled (a : A)
| Threw (e : error).
Global Arguments Fulfilled {A} a.
Global Arguments Threw {A} e.

(** [v?.toDate()] *)
Definition opt_toDate (v : field) : outcome (option Z) :=
  match v with
  | Undefined | Null => Fulfilled None
  | Timestamp t => Fulfilled (Some t)
  | Other _ => Threw (TypeError "toDate is not a function")
  end.

Definition failed {A} (o : outcome A) : bool :=
  match o with Fulfilled _ => false | Threw _ => true end.

End Js.

(** ** The document store *)
Module Firestore.

Record ChatDoc := {
  participants : list string;
  createdAt : Z;
  lastMessageText : string;
  lastMessageTimestamp : Z;
  participantNames : gmap string (option string);
  participantImages : gmap string (option string);
  vehicleName : option string;
}.

Record StoredMsg := {
  msg_id : string;
  msg_text : string;
  msg_createdAt : Z;
  senderId : string;
  senderName : option string;
  senderImage : option string;
}.

Record Store := {
  chats : gmap string ChatDoc;
  messages : gmap string (list StoredMsg);
}.

Definition empty : Store := {| chats := ∅; messages := ∅ |}.

(** The message log of a chat, in append order. *)
Definition log (st : Store) (chat : string) : list StoredMsg :=
  default [] (messages st !! chat).

(** What a query snapshot hands to a listener for one message. *)
Record MsgDoc := {
  doc_id : string;
  data_text : string;
  data_createdAt : Js.field;
  data_senderId : string;
  data_senderName : option string;
  data_senderImage : option string;
}.

Definition committed (m : StoredMsg) : MsgDoc :=
  {| doc_id := msg_id m;
     data_text := msg_text m;
     data_createdAt := Js.Timestamp (msg_createdAt m);
     data_senderId := senderId m;
     data_senderName := senderName m;
     data_senderImage := senderImage m |}.

(** All chat documents that carry a given participant array. *)
Definition chatsOf (st : Store) (p : list string) : list (string * ChatDoc) :=
  filter (λ kv, participants kv.2 = p) (map_to_list (chats st)).

(** The order in which a query without [orderBy] returns documents:
    by document id. *)
Fixpoint insertById {A} (x : string * A) (l : list (string * A))
  : list (string * A) :=
  match l with
  | [] => [x]
  | y :: l' => if String.ltb y.1 x.1 then y :: insertById x l' else x :: y :: l'
  end.

Definition orderById {A} (l : list (string * A)) : list (string * A) :=
  foldr insertById [] l.

(** [query(collection(db, "chats"), where("participants", "==", p),
    limit(1))]: of the matching documents, the one with the smallest
    id. *)
Definition chatsQuery (st : Store) (p : list string)
  : list (string * ChatDoc) :=
  take 1 (orderById (chatsOf st p)).

(** The store's order on messages: [createdAt], then document id. *)
Definition msg_ltb (a b : StoredMsg) : bool :=
  (msg_createdAt a <? msg_createdAt b)%Z
  || ((msg_createdAt a =? msg_createdAt b)%Z && String.ltb (msg_id a) (msg_id b)).

(** [a] comes strictly before [b] in that order; [a] does not. *)
Definition before_msg (a b : StoredMsg) : Prop := msg_ltb a b = true.
Definition not_before_msg (a b : StoredMsg) : Prop := msg_ltb a b = false.

Fixpoint insertDesc (a : StoredMsg) (l : list StoredMsg) : list StoredMsg :=
  match l with
  | [] => [a]
  | x :: l' => if msg_ltb x a then a :: x :: l' else x :: insertDesc a l'
  end.

(** Modelled from the spec: the ordered range read of the external
    store ("range read ordered by timestamp", ordering "determined by
    createdAt then id as tie-break"), in the direction the screen asks
    for. *)
Definition orderByCreatedAtDesc (l : list StoredMsg) : list StoredMsg :=
  foldr insertDesc [] l.

(** [query(messagesRef, orderBy("createdAt", "desc"))] *)
Definition messagesQuery (st : Store) (chat : string) : list MsgDoc :=
  committed <$> orderByCreatedAtDesc (log st chat).

End Firestore.

(** ** The chat screen ([ChatScreen] of [src/chat.jsx]) *)
Module ChatScreen.
Import Js Firestore.

(** [currentUser]: the uid and the profile fields the screen reads. *)
Record User := {
  uid : string;
  displayName : option string;
  email : option string;
  profileImage : option string;
}.

(** A message as the chat widget holds it. *)
Record Author := {
  author_id : string;
  author_name : option string;
  author_avatar : option string;
}.

Record Message := {
  _id : string;
  text : string;
  createdAt : option Z;
  user : Author;
}.

(** The route parameters and the React state of one mounted screen.
    [listeners] are the chat ids whose message listeners were attached
    by the effect. *)
Record Screen := {
  recipientId : option string;
  paramRecipientName : option string;
  paramRecipientImage : option string;
  paramVehicleName : option string;
  currentUser : option User;
  chatDocId : option string;
  messages : list Message;
  listeners : list string;
}.

Definition setChatDocId (v : option string) (sc : Screen) : Screen :=
  {| recipientId := recipientId sc;
     paramRecipientName := paramRecipientName sc;
     paramRecipientImage := paramRecipientImage sc;
     paramVehicleName := paramVehicleName sc;
     currentUser := currentUser sc;
     chatDocId := v;
     messages := messages sc;
     listeners := listeners sc |}.

Definition setMessages (v : list Message) (sc : Screen) : Screen :=
  {| recipientId := recipientId sc;
     paramRecipientName := paramRecipientName sc;
     paramRecipientImage := paramRecipientImage sc;
     paramVehicleName := paramVehicleName sc;
     currentUser := currentUser sc;
     chatDocId := chatDocId sc;
     messages := v;
     listeners := listeners sc |}.

Definition attachListener (chat : string) (sc : Screen) : Screen :=
  {| recipientId := recipientId sc;
     paramRecipientName := paramRecipientName sc;
     paramRecipientImage := paramRecipientImage sc;
     paramVehicleName := paramVehicleName sc;
     currentUser := currentUser sc;
     chatDocId := chatDocId sc;
     messages := messages sc;
     listeners := chat :: listeners sc |}.

(** *** Callbacks: state of the store and of the screen, and exceptions *)

Record World := {
  db : Store;
  ui : Screen;
}.

Definition Handler (A : Type) : Type := World → outcome A * World.

#[global] Instance Handler_ret : MRet Handler := λ A a w, (Fulfilled a, w).

(** Sequencing two awaited calls: a throw skips the rest. *)
#[global] Instance Handler_bind : MBind Handler := λ A B k m w,
  match m w with
  | (Fulfilled a, w') => k a w'
  | (Threw e, w') => (Threw e, w')
  end.

Definition setState (f : Screen → Screen) : Handler unit :=
  λ w, (Fulfilled tt, {| db := db w; ui := f (ui w) |}).

(** What the outside decides about one call of [onSend]: the two
    generated document ids, the server's time at each write, and which
    of the store calls are rejected. *)
Record Env := {
  autoChatId : string;
  autoMsgId : string;
  t_setDoc : Z;
  t_addDoc : Z;
  t_updateDoc : Z;
  setDoc_rejects : bool;
  addDoc_rejects : bool;
  updateDoc_rejects : bool;
}.

(** [await setDoc(ref, data)] *)
Definition setDoc (rejects : bool) (ref : string) (data : ChatDoc) : Handler unit :=
  λ w, if rejects then (Threw (Rejected "setDoc"), w)
       else (Fulfilled tt,
             {| db := {| chats := <[ref := data]> (chats (db w));
                         Firestore.messages := Firestore.messages (db w) |};
                ui := ui w |}).

(** [await addDoc(collection(ref, "messages"), data)] *)
Definition addDoc (rejects : bool) (ref : string) (data : StoredMsg) : Handler unit :=
  λ w, if rejects then (Threw (Rejected "addDoc"), w)
       else (Fulfilled tt,
             {| db := {| chats := chats (db w);
                         Firestore.messages :=
                           <[ref := (log (db w) ref ++ [data])%list]> (Firestore.messages (db w)) |};
                ui := ui w |}).

Definition summary (txt : string) (t : Z) (d : ChatDoc) : ChatDoc :=
  {| participants := participants d;
     Firestore.createdAt := Firestore.createdAt d;
     lastMessageText := txt;
     lastMessageTimestamp := t;
     participantNames := participantNames d;
     participantImages := participantImages d;
     vehicleName := vehicleName d |}.

(** [await updateDoc(ref, {lastMessageText, lastMessageTimestamp})]:
    rejected by the store when there is no such document. *)
Definition updateDoc (rejects : bool) (ref : string) (txt : string) (t : Z)
  : Handler unit :=
  λ w, match chats (db w) !! ref with
       | Some d =>
           if rejects then (Threw (Rejected "updateDoc"), w)
           else (Fulfilled tt,
                 {| db := {| chats := <[ref := summary txt t d]> (chats (db w));
                             Firestore.messages := Firestore.messages (db w) |};
                    ui := ui w |})
       | None => (Threw (Rejected "updateDoc"), w)
       end.

(** [[currentUser.uid, recipientId].sort()] *)
Definition participantsOf (a b : string) : list string := Js.sort [a; b].

(** The document written by the first send. *)
Definition newChat (sc : Screen) (u : User) (rid : string) (txt : string) (env : Env)
  : ChatDoc :=
  {| participants := participantsOf (uid u) rid;
     Firestore.createdAt := t_setDoc env;
     lastMessageText := txt;
     lastMessageTimestamp := t_setDoc env;
     participantNames :=
       <[rid := paramRecipientName sc]>
         {[uid u := Js.or (displayName u) (email u)]};
     participantImages :=
       <[rid := Js.or (paramRecipientImage sc) None]>
         {[uid u := Js.or (profileImage u) None]};
     vehicleName := Js.or (paramVehicleName sc) None |}.

Definition newMessage (u : User) (txt : string) (env : Env) : StoredMsg :=
  {| msg_id := autoMsgId env;
     msg_text := txt;
     msg_createdAt := t_addDoc env;
     senderId := uid u;
     senderName := Js.or (displayName u) (email u);
     senderImage := Js.or (profileImage u) None |}.

(** [if (!currentUser || !recipientId || newMessages.length === 0) return;] *)
Definition returnsEarly (sc : Screen) (newMessages : list Message) : bool :=
  negb (bool_decide (is_Some (currentUser sc)))
  || negb (truthy (recipientId sc))
  || bool_decide (length newMessages = 0%nat).

(** [onSend], with [sc] the state captured by the callback's closure. *)
Definition onSend (sc : Screen) (env : Env) (newMessages : list Message)
  : Handler unit :=
  if returnsEarly sc newMessages then mret tt else
  match currentUser sc, recipientId sc, newMessages with
  | Some u, Some rid, messageToSend :: _ =>
      let txt := text messageToSend in
      currentChatRef ←
        (if truthy (chatDocId sc) then mret (default "" (chatDocId sc))
         else
           let ref := autoChatId env in
           setState (setChatDocId (Some ref));;
           setDoc (setDoc_rejects env) ref (newChat sc u rid txt env);;
           mret ref);
      addDoc (addDoc_rejects env) currentChatRef (newMessage u txt env);;
      updateDoc (updateDoc_rejects env) currentChatRef txt (t_updateDoc env)
  | _, _, _ => mret tt
  end.

(** The body of [msgSnapshot.docs.map(doc => ...)]. *)
Definition toMessage (d : MsgDoc) : outcome Message :=
  match opt_toDate (data_createdAt d) with
  | Fulfilled date =>
      Fulfilled {| _id := doc_id d;
                   text := data_text d;
                   createdAt := date;
                   user := {| author_id := data_senderId d;
                              author_name := data_senderName d;
                              author_avatar := data_senderImage d |} |}
  | Threw e => Threw e
  end.

(** [Array.prototype.map] with a callback that may throw. *)
Fixpoint mapDocs (docs : list MsgDoc) : outcome (list Message) :=
  match docs with
  | [] => Fulfilled []
  | d :: rest =>
      match toMessage d with
      | Fulfilled m =>
          match mapDocs rest with
          | Fulfilled ms => Fulfilled (m :: ms)
          | Threw e => Threw e
          end
      | Threw e => Threw e
      end
  end.

(** The messages listener: [loadedMessages] and [setMessages]. *)
Definition onMessagesSnapshot (docs : list MsgDoc) : Handler unit :=
  λ w, match mapDocs docs with
       | Fulfilled loadedMessages => setState (setMessages loadedMessages) w
       | Threw e => (Threw e, w)
       end.

(** The chats listener of the effect, with [sc] the state captured when
    the effect ran and [snapshot] the result of the chats query. *)
Definition onChatsSnapshot (sc : Screen) (snapshot : list (string * ChatDoc))
  : Handler unit :=
  (match snapshot with
   | d :: _ => setState (setChatDocId (Some d.1))
   | [] => setState (setChatDocId None)
   end);;
  let currentChatDocId := Js.or (chatDocId sc) (fst <$> head snapshot) in
  if truthy currentChatDocId
  then setState (attachListener (default "" currentChatDocId))
  else mret tt.

(** The effect: nothing happens until user and recipient are known. *)
Definition effectRuns (sc : Screen) : bool :=
  bool_decide (is_Some (currentUser sc)) && truthy (recipientId sc).

Definition chatsSnapshot (sc : Screen) : Handler unit :=
  λ w, if effectRuns sc
       then match currentUser sc, recipientId sc with
            | Some u, Some rid =>
                onChatsSnapshot sc (chatsQuery (db w) (participantsOf (uid u) rid)) w
            | _, _ => (Fulfilled tt, w)
            end
       else (Fulfilled tt, w).

Definition messagesSnapshot (sc : Screen) (chat : string) : Handler unit :=
  λ w, if bool_decide (chat ∈ listeners sc)
       then onMessagesSnapshot (messagesQuery (db w) chat) w
       else (Fulfilled tt, w).

(** Resolving: the chats listener runs once against the store. *)
Definition resolve (sc : Screen) (st : Store) : World :=
  (chatsSnapshot sc {| db := st; ui := sc |}).2.

(** The message a document is shown as when its timestamp is missing. *)
Definition undated (d : MsgDoc) : Message :=
  {| _id := doc_id d;
     text := data_text d;
     createdAt := None;
     user := {| author_id := data_senderId d;
                author_name := data_senderName d;
                author_avatar := data_senderImage d |} |}.

(** The message a committed message is shown as. *)
Definition shown (m : StoredMsg) : Message :=
  {| _id := msg_id m;
     text := msg_text m;
     createdAt := Some (msg_createdAt m);
     user := {| author_id := senderId m;
                author_name := senderName m;
                author_avatar := senderImage m |} |}.

(** The document a send writes to. *)
Definition targetRef (sc : Screen) (env : Env) : string :=
  if truthy (chatDocId sc) then default "" (chatDocId sc) else autoChatId env.

(** *** Several screens against one store *)

Record System := {
  store : Store;
  screens : list Screen;
}.

Inductive Event :=
| ChatsSnapshot (c : nat)
| MessagesSnapshot (c : nat) (chat : string)
| Send (c : nat) (env : Env) (newMessages : list Message).

Definition screenOf (e : Event) : nat :=
  match e with
  | ChatsSnapshot c | MessagesSnapshot c _ | Send c _ _ => c
  end.

Definition handler (e : Event) (sc : Screen) : Handler unit :=
  match e with
  | ChatsSnapshot _ => chatsSnapshot sc
  | MessagesSnapshot _ chat => messagesSnapshot sc chat
  | Send _ env newMessages => onSend sc env newMessages
  end.

(** One callback runs to its end on the screen it belongs to. *)
Definition step (s : System) (e : Event) : System :=
  match screens s !! screenOf e with
  | Some sc =>
      let w := (handler e sc {| db := store s; ui := sc |}).2 in
      {| store := db w; screens := <[screenOf e := ui w]> (screens s) |}
  | None => s
  end.

Definition run (s : System) (es : list Event) : System := foldl step s es.

(** A freshly mounted screen of [u] talking to [rid], whose name the
    route gives as [name]. *)
Definition mount (u : User) (rid name : string) : Screen :=
  {| recipientId := Some rid;
     paramRecipientName := Some name;
     paramRecipientImage := None;
     paramVehicleName := None;
     currentUser := Some u;
     chatDocId := None;
     messages := [];
     listeners := [] |}.

End ChatScreen.

(** ** The new-chat screen ([NewChatScreen], [fetchUsers]) *)
Module NewChatScreen.

(** A document of the [users] collection, as the screen reads it. *)
Record UserDoc := {
  doc_id : string;
  data_displayName : option string;
  data_fullName : option string;
  data_email : option string;
  data_profileImage : option string;
}.

Record UserItem := {
  id : string;
  displayName : option string;
  profileImage : option string;
}.

Definition toItem (d : UserDoc) : UserItem :=
  {| id := doc_id d;
     displayName :=
       Js.or (Js.or (data_displayName d) (data_fullName d)) (data_email d);
     profileImage := Js.or (data_profileImage d) None |}.

(** The users listener: [snapshot.docs.filter(...).map(...)]. *)
Definition fetchedUsers (currentUserUid : string) (docs : list UserDoc)
  : list UserItem :=
  toItem <$> filter (λ d, doc_id d ≠ currentUserUid) docs.

(** The [users] state after [fetchUsers] ran and the listener, if one
    was attached, received [docs]; [authUid] is [auth.currentUser?.uid]. *)
Definition fetchUsers (authUid : option string) (docs : list UserDoc)
  : list UserItem :=
  if Js.truthy authUid
  then fetchedUsers (default "" authUid) docs
  else [].

End NewChatScreen.

(** ** Concrete users, screens and runs *)
Module Scenario.
Import Js Firestore ChatScreen.

Definition alice : User :=
  {| uid := "u1"; displayName := Some "Alice";
     email := Some "alice@example.org"; profileImage := None |}.

Definition bob : User :=
  {| uid := "u2"; displayName := Some "Bob";
     email := Some "bob@example.org"; profileImage := None |}.

(** An outgoing message as the chat widget passes it to [onSend]. *)
Definition outgoing (u : User) (k txt : string) : Message :=
  {| _id := k; text := txt; createdAt := Some 0;
     user := {| author_id := uid u;
                author_name := Js.or (displayName u) (email u);
                author_avatar := Js.or (profileImage u) None |} |}.

(** A send during which the store accepts every call; [chat] and [msg]
    are the generated ids, [t] the server time of the message. *)
Definition accepting (chat msg : string) (t : Z) : Env :=
  {| autoChatId := chat; autoMsgId := msg;
     t_setDoc := t - 1; t_addDoc := t; t_updateDoc := t + 1;
     setDoc_rejects := false; addDoc_rejects := false;
     updateDoc_rejects := false |}.

(** A send during which only the summary update is rejected. *)
Definition summaryRejected (chat msg : string) (t : Z) : Env :=
  {| autoChatId := chat; autoMsgId := msg;
     t_setDoc := t - 1; t_addDoc := t; t_updateDoc := t + 1;
     setDoc_rejects := false; addDoc_rejects := false;
     updateDoc_rejects := true |}.

(** A send during which the append is rejected. *)
Definition appendRejected (chat msg : string) (t : Z) : Env :=
  {| autoChatId := chat; autoMsgId := msg;
     t_setDoc := t - 1; t_addDoc := t; t_updateDoc := t + 1;
     setDoc_rejects := false; addDoc_rejects := true;
     updateDoc_rejects := false |}.

(** Alice's screen towards Bob and Bob's towards Alice, no chat yet. *)
Definition twoScreens : System :=
  {| store := Firestore.empty;
     screens := [mount alice "u2" "Bob"; mount bob "u1" "Alice"] |}.

(** Both screens have looked the chat up before either sends. *)
Definition race : list Event :=
  [ ChatsSnapshot 0;
    ChatsSnapshot 1;
    Send 0 (accepting "chatA" "m1" 100) [outgoing alice "x1" "hi"];
    Send 1 (accepting "chatB" "m2" 100) [outgoing bob "x2" "yo"] ].

(** The texts a send is not supposed to accept: nothing but white space. *)
Definition blank (s : string) : bool :=
  forallb (λ c, bool_decide (c ∈ [" "%char; "009"%char; "010"%char; "013"%char]))
          (String.list_ascii_of_string s).

(** Alice has written to Bob before; both have the chat open and hold
    its document id. *)
Definition conversation : System :=
  run twoScreens
    [ ChatsSnapshot 0;
      Send 0 (accepting "chatA" "m0" 1) [outgoing alice "x0" "hello"];
      ChatsSnapshot 0;
      ChatsSnapshot 1 ].

(** Alice sends, then Bob, and the messages listeners fire.  The sends
    carry the generated message ids [k1] and [k2] and are committed at
    the server times [t1] and [t2]. *)
Definition twoSends (k1 : string) (t1 : Z) (k2 : string) (t2 : Z) : list Event :=
  [ Send 0 (accepting "x" k1 t1) [outgoing alice "x1" "first"];
    Send 1 (accepting "y" k2 t2) [outgoing bob "x2" "second"];
    MessagesSnapshot 0 "chatA";
    MessagesSnapshot 1 "chatA" ].

(** Alice's screen once the listener of chat ["chatA"] is attached, and
    a store in which two messages were appended to that chat. *)
Definition listening : Screen := attachListener "chatA" (mount alice "u2" "Bob").

Definition stored (k txt : string) (t : Z) : StoredMsg :=
  {| msg_id := k; msg_text := txt; msg_createdAt := t;
     senderId := "u1"; senderName := Some "Alice"; senderImage := None |}.

Definition filled : Store :=
  {| chats := ∅;
     Firestore.messages :=
       {["chatA" := [stored "a" "first" 1; stored "b" "second" 2]]} |}.

(** The messages a screen holds, by id and text. *)
Definition view (s : System) (c : nat) : list (string * string) :=
  (λ m, (_id m, text m)) <$> default [] (messages <$> screens s !! c).

End Scenario.

(** ** The sign-in effect of the chat screen

    The first effect of [ChatScreen]: the callback given to
    [auth.onAuthStateChanged]. *)
Module ChatAuth.
Import Js Firestore ChatScreen.

(** The signed-in user as the auth service reports it. *)
Record AuthUser := {
  auth_uid : string;
  auth_email : option string;
}.

(** The fields of a [users] document that the screen reads after the
    spread [{ uid: user.uid, ...data }]; [profile_uid] is the document's
    own [uid] field, when it has one. *)
Record Profile := {
  profile_uid : option string;
  profile_displayName : option string;
  profile_email : option string;
  profile_profileImage : option string;
}.

(** The screen together with its [loading] flag and the calls made to
    [router.replace]. *)
Record Shell := {
  screen : Screen;
  loading : bool;
  replaced : list string;
}.

Definition setCurrentUser (u : User) (sc : Screen) : Screen :=
  {| recipientId := recipientId sc;
     paramRecipientName := paramRecipientName sc;
     paramRecipientImage := paramRecipientImage sc;
     paramVehicleName := paramVehicleName sc;
     currentUser := Some u;
     chatDocId := chatDocId sc;
     messages := ChatScreen.messages sc;
     listeners := listeners sc |}.

(** [{ uid: user.uid, ...userDocSnap.data() }] *)
Definition withProfile (user : AuthUser) (data : Profile) : User :=
  {| uid := default (auth_uid user) (profile_uid data);
     displayName := profile_displayName data;
     email := profile_email data;
     profileImage := profile_profileImage data |}.

(** [{ uid: user.uid, displayName: user.email, profileImage: null }] *)
Definition withoutProfile (user : AuthUser) : User :=
  {| uid := auth_uid user;
     displayName := auth_email user;
     email := None;
     profileImage := None |}.

(** The callback of [onAuthStateChanged]; [users] is the [users]
    collection and [getDoc_rejects] tells whether the read of the
    user's document is rejected. *)
Definition onAuthStateChanged (users : gmap string Profile) (getDoc_rejects : bool)
    (user : option AuthUser) (sh : Shell) : outcome unit * Shell :=
  match user with
  | Some user =>
      if getDoc_rejects then (Threw (Rejected "getDoc"), sh)
      else
        let u := match users !! auth_uid user with
                 | Some data => withProfile user data
                 | None => withoutProfile user
                 end in
        (Fulfilled tt,
         {| screen := setCurrentUser u (screen sh);
            loading := false;
            replaced := replaced sh |})
  | None =>
      (Fulfilled tt,
       {| screen := screen sh;
          loading := false;
          replaced := (replaced sh ++ ["/login"])%list |})
  end.

(** The screen as it is first rendered for a recipient. *)
Definition opened (rid name image vehicle : option string) : Shell :=
  {| screen := {| recipientId := rid;
                  paramRecipientName := name;
                  paramRecipientImage := image;
                  paramVehicleName := vehicle;
                  currentUser := None;
                  chatDocId := None;
                  messages := [];
                  listeners := [] |};
     loading := true;
     replaced := [] |}.

End ChatAuth.

(** ** Searching and choosing a user on the new-chat screen *)
Module NewChatSearch.
Import Js NewChatScreen.

(** [s.includes(t)] *)
Fixpoint includes (s t : string) : bool :=
  String.prefix t s
  || match s with
     | EmptyString => false
     | String _ s' => includes s' t
     end.

(** [users.filter(user =>
      user.displayName.toLowerCase().includes(searchQuery.toLowerCase()))];
    [toLowerCase] is the host's.  Reading [toLowerCase] off a missing
    [displayName] throws. *)
Fixpoint filteredUsers (toLowerCase : string → string) (searchQuery : string)
    (users : list UserItem) : outcome (list UserItem) :=
  match users with
  | [] => Fulfilled []
  | user :: rest =>
      match displayName user with
      | Some name =>
          match filteredUsers toLowerCase searchQuery rest with
          | Fulfilled kept =>
              Fulfilled (if includes (toLowerCase name) (toLowerCase searchQuery)
                         then user :: kept else kept)
          | Threw e => Threw e
          end
      | None => Threw (TypeError "toLowerCase of undefined")
      end
  end.

(** The route a tap on a user pushes. *)
Record ChatRoute := {
  pathname : string;
  recipientId : string;
  recipientName : option string;
  recipientImage : option string;
}.

(** [onPress] of [renderUserItem] *)
Definition onPressUser (item : UserItem) : ChatRoute :=
  {| pathname := "/chat/" ++ id item;
     recipientId := id item;
     recipientName := displayName item;
     recipientImage := profileImage item |}.

End NewChatSearch.

(** ** The booking history screen ([BookedCarsList] of [src/history.jsx]) *)
Module History.
Import Js.

(** What the screen takes from the JavaScript host without the model
    looking inside: date formatting and parsing, the price text
    [parseFloat(price ?? 0).toFixed(2)], [trim], [toLowerCase], and
    the message of the error the engine throws for [null.uid]. *)
Record Host := {
  toLocaleDateString : Z → string;
  parseDate : string → option Z;
  priceText : option string → string;
  trim : string → string;
  toLowerCase : string → string;
  nullReadMessage : string;
}.

(** A document field that may hold a date. *)
Inductive DateField :=
| DTimestamp (t : Z)
| DString (s : string)
| DOther.

(** [safeFormatDate] *)
Definition safeFormatDate (h : Host) (firebaseTimestamp : DateField) : string :=
  match firebaseTimestamp with
  | DTimestamp t => toLocaleDateString h t
  | DString s =>
      match parseDate h s with
      | Some t => toLocaleDateString h t
      | None => "N/A"
      end
  | DOther => "N/A"
  end.

(** A document of the [bookings] collection. *)
Record BookingDoc := {
  data_userId : option string;
  data_status : option string;
  data_ownerName : option string;
  data_vehicleBrand : option string;
  data_vehicleModel : option string;
  data_vehicleNumber : option string;
  data_name : option string;
  data_timestamp : DateField;
  data_startDate : DateField;
  data_endDate : DateField;
  data_price : option string;
  data_vehicleImageUrl : option string;
  data_pickupLocation : option string;
  data_dropoffLocation : option string;
  data_contactNumber : option string;
  data_hasReviewed : option bool;
  data_vehicleId : option string;
  data_ownerId : option string;
}.

(** A booking as the list shows it. *)
Record Booking := {
  id : string;
  businessName : string;
  carModel : string;
  licensePlate : string;
  customerName : string;
  bookingDate : string;
  pickupDate : string;
  returnDate : string;
  totalPrice : string;
  status : string;
  carImage : string;
  pickupLocation : string;
  dropoffLocation : string;
  contactNumber : string;
  hasReviewed : bool;
  vehicleId : option string;
  ownerId : option string;
}.

(** [s || dflt] on a string that is there. *)
Definition orElse (s dflt : string) : string :=
  if bool_decide (s = "") then dflt else s.

(** The object pushed for one document of the snapshot. *)
Definition toBooking (h : Host) (doc_id : string) (data : BookingDoc) : Booking :=
  {| id := doc_id;
     businessName := default "Rental Provider" (data_ownerName data);
     carModel :=
       orElse (trim h (default "" (data_vehicleBrand data) ++ " "
                       ++ default "" (data_vehicleModel data)))
              "Unknown Car";
     licensePlate := default "N/A" (data_vehicleNumber data);
     customerName := default "Unknown Customer" (data_name data);
     bookingDate := safeFormatDate h (data_timestamp data);
     pickupDate := safeFormatDate h (data_startDate data);
     returnDate := safeFormatDate h (data_endDate data);
     totalPrice := "$" ++ priceText h (data_price data);
     status := default "Pending" (data_status data);
     carImage := default "https://via.placeholder.com/150"
                   (Js.or (data_vehicleImageUrl data) None);
     pickupLocation := default "Not specified" (data_pickupLocation data);
     dropoffLocation := default "Not specified" (data_dropoffLocation data);
     contactNumber := default "N/A" (data_contactNumber data);
     hasReviewed := default false (data_hasReviewed data);
     vehicleId := data_vehicleId data;
     ownerId := data_ownerId data |}.

(** A document of the [reviews] collection. *)
Record ReviewDoc := {
  review_id : string;
  review_bookingId : string;
  review_userId : string;
  review_vehicleId : option string;
  review_ownerId : option string;
  review_rating : Z;
  review_text : string;
  review_timestamp : Z;
}.

Record Store := {
  bookingDocs : gmap string BookingDoc;
  reviews : list ReviewDoc;
}.

(** The signed-in user, as the auth service reports it. *)
Record AuthUser := {
  uid : string;
  email : option string;
}.

(** The React state of the screen. *)
Record State := {
  bookings : list Booking;
  loading : bool;
  searchQuery : string;
  selectedStatus : string;
  refreshing : bool;
  currentUser : option AuthUser;
  detailsModalVisible : bool;
  selectedBookingDetails : option Booking;
  reviewModalVisible : bool;
  bookingToReview : option Booking;
  rating : Z;
  reviewText : string;
}.

(** The store, the state of the screen and the alerts shown so far
    (title and message). *)
Record World := {
  db : Store;
  ui : State;
  alerts : list (string * string);
}.

Definition initial : State :=
  {| bookings := []; loading := true; searchQuery := "";
     selectedStatus := "All"; refreshing := false; currentUser := None;
     detailsModalVisible := false; selectedBookingDetails := None;
     reviewModalVisible := false; bookingToReview := None;
     rating := 0; reviewText := "" |}.

(** The state once a fetch is over: [setBookings] (when it is called)
    and, at the end, [setLoading(false)] and [setRefreshing(false)]. *)
Definition fetched (results : option (list Booking)) (st : State) : State :=
  {| bookings := default (bookings st) results;
     loading := false;
     searchQuery := searchQuery st;
     selectedStatus := selectedStatus st;
     refreshing := false;
     currentUser := currentUser st;
     detailsModalVisible := detailsModalVisible st;
     selectedBookingDetails := selectedBookingDetails st;
     reviewModalVisible := reviewModalVisible st;
     bookingToReview := bookingToReview st;
     rating := rating st;
     reviewText := reviewText st |}.

(** [where("userId", "==", uid)], and [where("status", "==", status)]
    unless the selected status is ["All"]. *)
Definition matches (user : string) (selected : string) (data : BookingDoc) : bool :=
  bool_decide (data_userId data = Some user)
  && (bool_decide (selected = "All")
      || bool_decide (data_status data = Some selected)).

(** [getDocs(q)]: the documents the query selects, by document id. *)
Definition bookingsQuery (st : Store) (user : string) (selected : string)
  : list (string * BookingDoc) :=
  Firestore.orderById
    (filter (λ kv, matches user selected kv.2 = true) (map_to_list (bookingDocs st))).

(** [fetchBookings], with [closure] the state the callback was created
    in and [getDocs_error] the message the read is rejected with, if it
    is rejected. *)
Definition fetchBookings (h : Host) (closure : State) (getDocs_error : option string)
    (w : World) : World :=
  match currentUser closure with
  | None => {| db := db w; ui := fetched (Some []) (ui w); alerts := alerts w |}
  | Some user =>
      match getDocs_error with
      | None =>
          let results :=
            (λ kv, toBooking h kv.1 kv.2)
              <$> bookingsQuery (db w) (uid user) (selectedStatus closure) in
          {| db := db w; ui := fetched (Some results) (ui w); alerts := alerts w |}
      | Some message =>
          {| db := db w;
             ui := fetched None (ui w);
             alerts := (alerts w ++ [("Error loading bookings", message)])%list |}
      end
  end.

(** The callback of [onAuthStateChanged]. *)
Definition onAuthStateChanged (user : option AuthUser) (st : State) : State :=
  {| bookings := match user with Some _ => bookings st | None => [] end;
     loading := match user with Some _ => loading st | None => false end;
     searchQuery := searchQuery st;
     selectedStatus := selectedStatus st;
     refreshing := match user with Some _ => refreshing st | None => false end;
     currentUser := user;
     detailsModalVisible := detailsModalVisible st;
     selectedBookingDetails := selectedBookingDetails st;
     reviewModalVisible := reviewModalVisible st;
     bookingToReview := bookingToReview st;
     rating := rating st;
     reviewText := reviewText st |}.

(** [s.includes(t)] *)
Fixpoint includes (s t : string) : bool :=
  String.prefix t s
  || match s with
     | EmptyString => false
     | String _ s' => includes s' t
     end.

(** [filteredBookings] *)
Definition filteredBookings (h : Host) (st : State) : list Booking :=
  let searchLower := toLowerCase h (searchQuery st) in
  filter (λ booking,
            includes (toLowerCase h (businessName booking)) searchLower
            || includes (toLowerCase h (carModel booking)) searchLower
            || includes (toLowerCase h (customerName booking)) searchLower
            || includes (toLowerCase h (licensePlate booking)) searchLower = true)
         (bookings st).

Definition statusOptions : list string :=
  ["All"; "Accepted"; "Pending"; "Completed"; "Cancelled"].

(** [getStatusColor] *)
Definition getStatusColor (status : string) : string :=
  if bool_decide (status = "accepdted") then "#4CAF50"
  else if bool_decide (status = "pending") then "#FFC107"
  else if bool_decide (status = "completed") then "#2196F3"
  else if bool_decide (status = "cancelled") then "#F44336"
  else "#9E9E9E".

(** The buttons in the footer of a booking card. *)
Inductive FooterButton := ViewDetails | LeaveReview | Reviewed | Contact.

(** The footer of [renderBookingItem]. *)
Definition footer (item : Booking) : list FooterButton :=
  ([ViewDetails]
   ++ (if bool_decide (status item = "completed") && negb (hasReviewed item)
       then [LeaveReview] else [])
   ++ (if bool_decide (status item = "completed") && hasReviewed item
       then [Reviewed] else [])
   ++ (if negb (bool_decide (status item = "completed"))
       then [Contact] else []))%list.

Definition setReviewForm (visible : bool) (b : option Booking) (r : Z) (txt : string)
    (st : State) : State :=
  {| bookings := bookings st;
     loading := loading st;
     searchQuery := searchQuery st;
     selectedStatus := selectedStatus st;
     refreshing := refreshing st;
     currentUser := currentUser st;
     detailsModalVisible := detailsModalVisible st;
     selectedBookingDetails := selectedBookingDetails st;
     reviewModalVisible := visible;
     bookingToReview := b;
     rating := r;
     reviewText := txt |}.

(** [closeReviewModal] *)
Definition closeReviewModal (st : State) : State :=
  setReviewForm false None 0 "" st.

(** [handleReviewPress] *)
Definition handleReviewPress (booking : Booking) (w : World) : World :=
  if hasReviewed booking
  then {| db := db w; ui := ui w;
          alerts := (alerts w ++ [("Already Reviewed",
                       "You have already submitted a review for this booking.")])%list |}
  else {| db := db w;
          ui := setReviewForm true (Some booking) (rating (ui w)) (reviewText (ui w)) (ui w);
          alerts := alerts w |}.

(** What the outside decides about one call of [handleSubmitReview]:
    the generated id of the review, the clock, and the messages the
    store calls are rejected with, if they are. *)
Record Env := {
  autoReviewId : string;
  now : Z;
  addDoc_error : option string;
  updateDoc_error : option string;
  getDocs_error : option string;
}.

Definition markReviewed (data : BookingDoc) : BookingDoc :=
  {| data_userId := data_userId data;
     data_status := data_status data;
     data_ownerName := data_ownerName data;
     data_vehicleBrand := data_vehicleBrand data;
     data_vehicleModel := data_vehicleModel data;
     data_vehicleNumber := data_vehicleNumber data;
     data_name := data_name data;
     data_timestamp := data_timestamp data;
     data_startDate := data_startDate data;
     data_endDate := data_endDate data;
     data_price := data_price data;
     data_vehicleImageUrl := data_vehicleImageUrl data;
     data_pickupLocation := data_pickupLocation data;
     data_dropoffLocation := data_dropoffLocation data;
     data_contactNumber := data_contactNumber data;
     data_hasReviewed := Some true;
     data_vehicleId := data_vehicleId data;
     data_ownerId := data_ownerId data |}.

(** The document [handleSubmitReview] adds to [reviews]. *)
Definition reviewOf (closure : State) (booking : Booking) (user : AuthUser)
    (env : Env) : ReviewDoc :=
  {| review_id := autoReviewId env;
     review_bookingId := id booking;
     review_userId := uid user;
     review_vehicleId := vehicleId booking;
     review_ownerId := ownerId booking;
     review_rating := rating closure;
     review_text := reviewText closure;
     review_timestamp := now env |}.

Definition failedToSubmit (message : string) (w : World) : World :=
  {| db := db w; ui := ui w;
     alerts := (alerts w
                ++ [("Error", String.append "Failed to submit review: " message)])%list |}.

(** [handleSubmitReview], with [closure] the state the callback was
    created in.  A missing [currentUser] makes [currentUser.uid] throw
    inside the [try]; [updateDoc] is rejected by the store when the
    booking document does not exist. *)
Definition handleSubmitReview (h : Host) (closure : State) (env : Env) (w : World)
  : World :=
  match bookingToReview closure with
  | None =>
      {| db := db w; ui := ui w;
         alerts := (alerts w ++ [("Error", "Please provide a rating and a review.")])%list |}
  | Some booking =>
      if bool_decide (rating closure = 0)
      then {| db := db w; ui := ui w;
              alerts := (alerts w ++ [("Error", "Please provide a rating and a review.")])%list |}
      else
        match currentUser closure with
        | None => failedToSubmit (nullReadMessage h) w
        | Some user =>
            match addDoc_error env with
            | Some message => failedToSubmit message w
            | None =>
                let review := reviewOf closure booking user env in
                let w1 := {| db := {| bookingDocs := bookingDocs (db w);
                                      reviews := (reviews (db w) ++ [review])%list |};
                             ui := ui w; alerts := alerts w |} in
                match bookingDocs (db w) !! id booking, updateDoc_error env with
                | Some data, None =>
                    let w2 :=
                      {| db := {| bookingDocs :=
                                    <[id booking := markReviewed data]> (bookingDocs (db w1));
                                  reviews := reviews (db w1) |};
                         ui := closeReviewModal (ui w1);
                         alerts := (alerts w1
                                    ++ [("Success", "Your review has been submitted!")])%list |} in
                    fetchBookings h closure (getDocs_error env) w2
                | Some _, Some message => failedToSubmit message w1
                | None, _ => failedToSubmit "No document to update" w1
                end
            end
        end
  end.

End History.

(** ** More concrete data *)
Module Examples.
Import Js Firestore ChatScreen Scenario.

(** A send whose create is rejected. *)
Definition createRejected (chat msg : string) (t : Z) : ChatScreen.Env :=
  {| autoChatId := chat; autoMsgId := msg;
     t_setDoc := t - 1; t_addDoc := t; t_updateDoc := t + 1;
     setDoc_rejects := true; addDoc_rejects := false;
     updateDoc_rejects := false |}.

(** Alice's screen and the store once she has written to Bob. *)
Definition aliceTalking : Screen := attachListener "chatA" (setChatDocId (Some "chatA") (mount alice "u2" "Bob")).

Definition chatADoc : ChatDoc :=
  summary "hello" 2 (newChat (mount alice "u2" "Bob") alice "u2" "hello" (accepting "chatA" "m0" 1)).

Definition talking : ChatScreen.World :=
  {| ChatScreen.db := store conversation; ChatScreen.ui := aliceTalking |}.

Definition fresh : ChatScreen.World :=
  {| ChatScreen.db := Firestore.empty; ChatScreen.ui := mount alice "u2" "Bob" |}.

(** A snapshot with one document whose [createdAt] is a string. *)
Definition pendingDoc : MsgDoc :=
  {| doc_id := "m1"; data_text := "hi"; data_createdAt := Null;
     data_senderId := "u1"; data_senderName := Some "Alice";
     data_senderImage := None |}.

Definition datedDoc : MsgDoc :=
  {| doc_id := "m2"; data_text := "yo"; data_createdAt := Timestamp 7;
     data_senderId := "u2"; data_senderName := Some "Bob";
     data_senderImage := None |}.

Definition malformedDoc : MsgDoc :=
  {| doc_id := "m3"; data_text := "old"; data_createdAt := Other "2024-01-01";
     data_senderId := "u2"; data_senderName := Some "Bob";
     data_senderImage := None |}.

(** The signed-in Alice, without a document in [users]. *)
Definition aliceAuth : ChatAuth.AuthUser :=
  {| ChatAuth.auth_uid := "u1"; ChatAuth.auth_email := Some "alice@example.org" |}.

Definition openedForBob : ChatAuth.Shell :=
  ChatAuth.opened (Some "u2") (Some "Bob") None None.

(** The [users] collection: Alice, Bob, and a document without names. *)
Definition people : list NewChatScreen.UserDoc :=
  [ {| NewChatScreen.doc_id := "u1";
       NewChatScreen.data_displayName := Some "Alice";
       NewChatScreen.data_fullName := None;
       NewChatScreen.data_email := None;
       NewChatScreen.data_profileImage := None |};
    {| NewChatScreen.doc_id := "u2";
       NewChatScreen.data_displayName := None;
       NewChatScreen.data_fullName := Some "Bob B.";
       NewChatScreen.data_email := Some "bob@example.org";
       NewChatScreen.data_profileImage := None |} ].

Definition nameless : NewChatScreen.UserDoc :=
  {| NewChatScreen.doc_id := "u3";
     NewChatScreen.data_displayName := None;
     NewChatScreen.data_fullName := Some "";
     NewChatScreen.data_email := None;
     NewChatScreen.data_profileImage := None |}.

(** A host that formats every date alike and changes no text. *)
Definition plainHost : History.Host :=
  {| History.toLocaleDateString := λ _, "1/1/2025";
     History.parseDate := λ _, None;
     History.priceText := λ p, default "0.00" p;
     History.trim := λ s, s;
     History.toLowerCase := λ s, s;
     History.nullReadMessage := "Cannot read properties of null (reading 'uid')" |}.

Definition rental (status : option string) : History.BookingDoc :=
  {| History.data_userId := Some "u1";
     History.data_status := status;
     History.data_ownerName := Some "Cars Ltd";
     History.data_vehicleBrand := Some "Fiat";
     History.data_vehicleModel := Some "Panda";
     History.data_vehicleNumber := None;
     History.data_name := Some "Alice";
     History.data_timestamp := History.DTimestamp 10;
     History.data_startDate := History.DString "soon";
     History.data_endDate := History.DOther;
     History.data_price := Some "12.50";
     History.data_vehicleImageUrl := None;
     History.data_pickupLocation := None;
     History.data_dropoffLocation := None;
     History.data_contactNumber := None;
     History.data_hasReviewed := None;
     History.data_vehicleId := Some "v1";
     History.data_ownerId := Some "o1" |}.

Definition rentals : History.Store :=
  {| History.bookingDocs :=
       <["b3" := rental (Some "Completed")]>
         (<["b2" := rental None]> {["b1" := rental (Some "completed")]});
     History.reviews := [] |}.

Definition renter : History.AuthUser :=
  {| History.uid := "u1"; History.email := Some "alice@example.org" |}.

(** The screen of the renter with a status selected. *)
Definition browsing (selected : string) : History.State :=
  {| History.bookings := []; History.loading := false;
     History.searchQuery := ""; History.selectedStatus := selected;
     History.refreshing := false; History.currentUser := Some renter;
     History.detailsModalVisible := false;
     History.selectedBookingDetails := None;
     History.reviewModalVisible := false; History.bookingToReview := None;
     History.rating := 0; History.reviewText := "" |}.

(** The review form open on booking ["b1"], four stars, no text. *)
Definition reviewing : History.State :=
  History.setReviewForm true
    (Some (History.toBooking plainHost "b1" (rental (Some "completed"))))
    4 "" (browsing "All").

Definition atRentals (st : History.State) : History.World :=
  {| History.db := rentals; History.ui := st; History.alerts := [] |}.

Definition reviewAccepted (k : string) : History.Env :=
  {| History.autoReviewId := k; History.now := 50;
     History.addDoc_error := None; History.updateDoc_error := None;
     History.getDocs_error := None |}.

Definition markingRejected (k : string) : History.Env :=
  {| History.autoReviewId := k; History.now := 40;
     History.addDoc_error := None; History.updateDoc_error := Some "unavailable";
     History.getDocs_error := None |}.

End Examples.

(** * Properties *)

Import Js Firestore ChatScreen.

(** ** Sorting the two participant ids *)
Section Participants.

Lemma before_asym (a b : string) : before a b = true → before b a = false.
Proof.
  unfold before, String.ltb. rewrite (String.compare_antisym b a).
  by destruct (String.compare a b).
Qed.

Lemma before_total (a b : string) :
  before a b = false → before b a = false → a = b.
Proof.
  unfold before, String.ltb. rewrite (String.compare_antisym b a).
  destruct (String.compare a b) eqn:E; try discriminate.
  intros _ _. by apply String.compare_eq_iff.
Qed.

Lemma participantsOf_unfold (a b : string) :
  participantsOf a b = if before b a then [b; a] else [a; b].
Proof. reflexivity. Qed.

Lemma participantsOf_comm (a b : string) :
  participantsOf a b = participantsOf b a.
Proof.
  rewrite !participantsOf_unfold.
  destruct (before b a) eqn:Hba, (before a b) eqn:Hab; try done.
  - apply before_asym in Hba. congruence.
  - by rewrite (before_total _ _ Hab Hba).
Qed.

End Participants.

(** ** Resolution *)
Section Resolution.

Lemma effectRuns_known (sc : Screen) (u : User) (rid : string) :
  currentUser sc = Some u → recipientId sc = Some rid → rid ≠ "" →
  effectRuns sc = true.
Proof.
  intros Hu Hr Hne. unfold effectRuns, truthy. rewrite Hu, Hr.
  rewrite bool_decide_true by eauto.
  by rewrite bool_decide_false.
Qed.

Lemma onChatsSnapshot_spec (sc : Screen) (snapshot : list (string * ChatDoc)) (w : World) :
  chatDocId (ui (onChatsSnapshot sc snapshot w).2) = fst <$> head snapshot
  ∧ db (onChatsSnapshot sc snapshot w).2 = db w.
Proof.
  unfold onChatsSnapshot.
  destruct snapshot as [|d ds]; cbn; by destruct (truthy _).
Qed.

(** The document id a screen holds after resolving is the id of the
    first match of the chats query, or [null]. *)
Lemma resolve_chatDocId (sc : Screen) (st : Store) (u : User) (rid : string) :
  currentUser sc = Some u → recipientId sc = Some rid → rid ≠ "" →
  chatDocId (ui (resolve sc st))
  = fst <$> head (chatsQuery st (participantsOf (uid u) rid)).
Proof.
  intros Hu Hr Hne. unfold resolve, chatsSnapshot.
  rewrite (effectRuns_known sc u rid Hu Hr Hne), Hu, Hr.
  apply onChatsSnapshot_spec.
Qed.


End Resolution.

(** C9: a message document whose [createdAt] is absent or still pending
    is shown with an undefined date and with its id, text and sender
    fields; the listener does not throw on a snapshot of such documents. *)
Theorem projection_total_without_timestamp (docs : list MsgDoc) :
  Forall (λ d, data_createdAt d = Undefined ∨ data_createdAt d = Null) docs →
  mapDocs docs = Fulfilled (undated <$> docs).
Proof.
  induction 1 as [|d docs Hd _ IH]; [done|].
  cbn. rewrite IH.
  unfold toMessage. by destruct Hd as [-> | ->].
Qed.

(** C10: for an authenticated user, the users offered for a new chat are
    the documents of the snapshot, in order, without the document of the
    user: the user's own id is not among them and every other document
    is. *)
Theorem fetchUsers_excludes_current_user
    (currentUserUid : string) (docs : list NewChatScreen.UserDoc) :
  currentUserUid ≠ "" →
  let users := NewChatScreen.fetchUsers (Some currentUserUid) docs in
  users = NewChatScreen.toItem
            <$> filter (λ d, NewChatScreen.doc_id d ≠ currentUserUid) docs
  ∧ NewChatScreen.id <$> users
    = filter (λ i, i ≠ currentUserUid) (NewChatScreen.doc_id <$> docs)
  ∧ currentUserUid ∉ NewChatScreen.id <$> users.
Proof.
  intros Hne. cbn zeta.
  assert (NewChatScreen.fetchUsers (Some currentUserUid) docs
          = NewChatScreen.toItem
              <$> filter (λ d, NewChatScreen.doc_id d ≠ currentUserUid) docs) as ->.
  { unfold NewChatScreen.fetchUsers. cbn. by rewrite bool_decide_false. }
  assert (NewChatScreen.id <$> (NewChatScreen.toItem
            <$> filter (λ d, NewChatScreen.doc_id d ≠ currentUserUid) docs)
          = filter (λ i, i ≠ currentUserUid) (NewChatScreen.doc_id <$> docs)) as Hids.
  { induction docs as [|d docs IH]; [done|].
    rewrite fmap_cons, !filter_cons. cbn.
    destruct (decide (NewChatScreen.doc_id d ≠ currentUserUid)); cbn;
      by rewrite IH. }
  split; [done|]. split; [done|].
  rewrite Hids. intros [Hin _]%list_elem_of_filter. by apply Hin.
Qed.

Ltac run_onSend :=
  unfold onSend, mbind, mret, Handler_bind, Handler_ret,
    setState, setDoc, addDoc, updateDoc, targetRef in *.

(** ** Sending *)
Section Sending.

Lemma returnsEarly_false (sc : Screen) (newMessages : list Message) :
  returnsEarly sc newMessages = false →
  ∃ u rid m rest,
    currentUser sc = Some u ∧ recipientId sc = Some rid ∧ rid ≠ ""
    ∧ newMessages = m :: rest.
Proof.
  unfold returnsEarly, truthy.
  destruct (currentUser sc) as [u|], (recipientId sc) as [rid|],
    newMessages as [|m rest]; cbn;
    rewrite ?bool_decide_true, ?bool_decide_false by (eauto || by intros [??]);
    cbn; try done.
  - by rewrite orb_true_r.
  - intros Hne%orb_false_elim. destruct Hne as [Hne _].
    apply negb_false_iff, negb_true_iff, bool_decide_eq_false in Hne.
    by exists u, rid, m, rest.
Qed.

(** A send that returns early touches neither the store nor the screen. *)
Lemma onSend_early (sc : Screen) (env : Env) (newMessages : list Message) (w : World) :
  returnsEarly sc newMessages = true →
  onSend sc env newMessages w = (Fulfilled tt, w).
Proof. intros H. unfold onSend. by rewrite H. Qed.

Lemma log_insert_eq (st : gmap string (list StoredMsg)) (c : gmap string ChatDoc)
    (k : string) (l : list StoredMsg) :
  log {| chats := c; Firestore.messages := <[k := l]> st |} k = l.
Proof. unfold log. cbn. by rewrite lookup_insert_eq. Qed.

End Sending.


(** C5: a send whose create step or append step is rejected ends in a
    rejection, and the message logs of the store are what they were
    before the send. *)
Theorem failed_send_appends_nothing
    (sc : Screen) (env : Env) (newMessages : list Message) (w : World) :
  returnsEarly sc newMessages = false →
  (truthy (chatDocId sc) = false ∧ setDoc_rejects env = true)
  ∨ addDoc_rejects env = true →
  failed (onSend sc env newMessages w).1 = true
  ∧ Firestore.messages (db (onSend sc env newMessages w).2)
    = Firestore.messages (db w).
Proof.
  intros Hgo Hrej.
  destruct (returnsEarly_false _ _ Hgo) as (u & rid & m & rest & Hu & Hr & _ & ->).
  run_onSend. rewrite Hgo, Hu, Hr.
  destruct Hrej as [[Hnew Hset] | Hadd].
  - by rewrite Hnew, Hset.
  - rewrite Hadd.
    destruct (truthy (chatDocId sc)); [done|].
    by destruct (setDoc_rejects env).
Qed.

(** C8, as the code has it: when the store accepts the create and the
    append but rejects the summary update, the send ends in that
    rejection, while the message stays appended to the log of the chat. *)
Theorem rejected_summary_rejects_send
    (sc : Screen) (env : Env) (u : User) (m : Message) (rest : list Message)
    (w : World) :
  currentUser sc = Some u → truthy (recipientId sc) = true →
  setDoc_rejects env = false → addDoc_rejects env = false →
  updateDoc_rejects env = true →
  (onSend sc env (m :: rest) w).1 = Threw (Rejected "updateDoc")
  ∧ log (db (onSend sc env (m :: rest) w).2) (targetRef sc env)
    = (log (db w) (targetRef sc env) ++ [newMessage u (text m) env])%list.
Proof.
  intros Hu Hr Hset Hadd Hupd.
  assert (returnsEarly sc (m :: rest) = false) as Hgo.
  { unfold returnsEarly. rewrite Hu, Hr.
    by rewrite bool_decide_true by eauto. }
  destruct (returnsEarly_false _ _ Hgo) as (u' & rid & m' & rest' & Hu' & Hrid & _ & _).
  run_onSend. rewrite Hgo, Hu, Hrid, Hset, Hadd, Hupd.
  destruct (truthy (chatDocId sc)); cbn.
  - destruct (chats (db w) !! _); cbn; by rewrite log_insert_eq.
  - rewrite lookup_insert_eq. cbn. by rewrite log_insert_eq.
Qed.

Import Scenario.

Lemma failed_send_appends_nothing_witness :
  let sc := mount alice "u2" "Bob" in
  let w := {| db := Firestore.empty; ui := sc |} in
  let r := onSend sc (appendRejected "chatA" "m1" 100) [outgoing alice "x1" "hi"] w in
  failed r.1 = true ∧ Firestore.messages (db r.2) = Firestore.messages (db w).
Proof.
  apply failed_send_appends_nothing; [reflexivity | right; reflexivity].
Defined.

(** C8, as the specification states it, fails: Alice's first send to
    Bob creates the chat and appends the message, the summary update is
    rejected, and the send does not report success. *)
Lemma rejected_summary_is_not_success :
  let sc := mount alice "u2" "Bob" in
  let env := summaryRejected "chatA" "m1" 100 in
  let r := onSend sc env [outgoing alice "x1" "hi"] {| db := Firestore.empty; ui := sc |} in
  participants <$> chats (db r.2) !! "chatA" = Some ["u1"; "u2"]
  ∧ log (db r.2) "chatA" = [newMessage alice "hi" env]
  ∧ r.1 ≠ Fulfilled tt
  ∧ failed r.1 = true.
Proof. vm_compute. repeat split; discriminate. Qed.

Lemma rejected_summary_rejects_send_witness :
  let sc := mount alice "u2" "Bob" in
  let env := summaryRejected "chatA" "m1" 100 in
  let w := {| db := Firestore.empty; ui := sc |} in
  (onSend sc env [outgoing alice "x1" "hi"] w).1 = Threw (Rejected "updateDoc")
  ∧ log (db (onSend sc env [outgoing alice "x1" "hi"] w).2) (targetRef sc env)
    = (log (db w) (targetRef sc env) ++ [newMessage alice "hi" env])%list.
Proof.
  apply rejected_summary_rejects_send; reflexivity.
Defined.

(** C3, as the specification states it, fails: a text of three spaces
    is sent like any other; the chat is created, the message appended
    and the send returns normally. *)
Lemma blank_text_is_sent :
  let sc := mount alice "u2" "Bob" in
  let env := accepting "chatA" "m1" 100 in
  let r := onSend sc env [outgoing alice "x1" "   "] {| db := Firestore.empty; ui := sc |} in
  blank "   " = true
  ∧ r.1 = Fulfilled tt
  ∧ lastMessageText <$> chats (db r.2) !! "chatA" = Some "   "
  ∧ msg_text <$> log (db r.2) "chatA" = ["   "].
Proof. vm_compute. done. Qed.

(** C3, as the code has it: the text is not examined.  With a current
    user, a recipient id and a message to send, and a store that accepts
    the calls, the send returns normally for every text, having appended
    a message with that text and recorded it as the last message of the
    chat. *)
Theorem send_does_not_examine_text
    (sc : Screen) (env : Env) (u : User) (m : Message) (rest : list Message)
    (w : World) :
  currentUser sc = Some u → truthy (recipientId sc) = true →
  setDoc_rejects env = false → addDoc_rejects env = false →
  updateDoc_rejects env = false →
  (truthy (chatDocId sc) = true → is_Some (chats (db w) !! targetRef sc env)) →
  (onSend sc env (m :: rest) w).1 = Fulfilled tt
  ∧ log (db (onSend sc env (m :: rest) w).2) (targetRef sc env)
    = (log (db w) (targetRef sc env) ++ [newMessage u (text m) env])%list
  ∧ lastMessageText <$> chats (db (onSend sc env (m :: rest) w).2) !! targetRef sc env
    = Some (text m).
Proof.
  intros Hu Hr Hset Hadd Hupd Hknown.
  assert (returnsEarly sc (m :: rest) = false) as Hgo.
  { unfold returnsEarly. rewrite Hu, Hr.
    by rewrite bool_decide_true by eauto. }
  destruct (returnsEarly_false _ _ Hgo) as (u' & rid & m' & rest' & Hu' & Hrid & _ & _).
  run_onSend. rewrite Hgo, Hu, Hrid, Hset, Hadd, Hupd.
  destruct (truthy (chatDocId sc)); cbn.
  - destruct Hknown as [d Hd]; [done|]. cbn in Hd. rewrite Hd. cbn.
    by rewrite log_insert_eq, lookup_insert_eq.
  - rewrite lookup_insert_eq. cbn.
    by rewrite log_insert_eq, lookup_insert_eq.
Qed.

Lemma send_does_not_examine_text_witness :
  let sc := mount alice "u2" "Bob" in
  let env := accepting "chatA" "m1" 100 in
  let w := {| db := Firestore.empty; ui := sc |} in
  let m := outgoing alice "x1" "   " in
  (onSend sc env [m] w).1 = Fulfilled tt
  ∧ log (db (onSend sc env [m] w).2) (targetRef sc env)
    = (log (db w) (targetRef sc env) ++ [newMessage alice (text m) env])%list
  ∧ lastMessageText <$> chats (db (onSend sc env [m] w).2) !! targetRef sc env
    = Some (text m).
Proof.
  apply send_does_not_examine_text; try reflexivity.
  intros H. vm_compute in H. discriminate H.
Defined.


(** ** Several screens *)
Section Screens.

Lemma chatsSnapshot_db (sc : Screen) (w : World) :
  db (chatsSnapshot sc w).2 = db w.
Proof.
  unfold chatsSnapshot.
  destruct (effectRuns sc); [|done].
  destruct (currentUser sc) as [u|]; [|done].
  destruct (recipientId sc) as [rid|]; [|done].
  apply onChatsSnapshot_spec.
Qed.

Lemma messagesSnapshot_db (sc : Screen) (chat : string) (w : World) :
  db (messagesSnapshot sc chat w).2 = db w.
Proof.
  unfold messagesSnapshot, onMessagesSnapshot.
  destruct (bool_decide _); [|done].
  by destruct (mapDocs _).
Qed.

(** A send adds at most one chat document, and only when the screen
    holds no chat document id. *)
Lemma onSend_dom (sc : Screen) (env : Env) (newMessages : list Message) (w : World) :
  dom (chats (db (onSend sc env newMessages w).2)) = dom (chats (db w))
  ∨ (returnsEarly sc newMessages = false
     ∧ truthy (chatDocId sc) = false
     ∧ setDoc_rejects env = false
     ∧ dom (chats (db (onSend sc env newMessages w).2))
       = {[autoChatId env]} ∪ dom (chats (db w))).
Proof.
  destruct (returnsEarly sc newMessages) eqn:Hgo.
  { left. by rewrite onSend_early. }
  destruct (returnsEarly_false _ _ Hgo) as (u & rid & m & rest & Hu & Hr & _ & ->).
  run_onSend. rewrite Hgo, Hu, Hr.
  destruct (truthy (chatDocId sc)) eqn:Hknown; cbn.
  - left. destruct (addDoc_rejects env); [done|]. cbn.
    destruct (chats (db w) !! _) as [d|] eqn:Hd; [|done].
    destruct (updateDoc_rejects env); [done|]. cbn.
    rewrite dom_insert_L. apply elem_of_dom_2 in Hd.
    by apply subseteq_union_1_L, singleton_subseteq_l.
  - destruct (setDoc_rejects env); [by left|]. right.
    do 3 (split; [done|]). cbn.
    destruct (addDoc_rejects env); cbn; [by rewrite dom_insert_L|].
    rewrite lookup_insert_eq.
    destruct (updateDoc_rejects env); cbn; rewrite !dom_insert_L; [done|].
    by rewrite (assoc_L (∪)), (idemp_L (∪)).
Qed.

End Screens.

(** C1 does not hold of the code.  Alice and Bob both open the chat
    while no chat document of the pair exists, and then both send: each
    send creates a chat document of its own, and the store ends up with
    two documents for the one pair. *)
Theorem race_creates_two_chats :
  chatsOf (store twoScreens) (participantsOf "u1" "u2") = []
  ∧ chatDocId <$> screens (run twoScreens (take 2 race)) = [None; None]
  ∧ (λ kv, (kv.1, participants kv.2))
      <$> chatsOf (store (run twoScreens race)) (participantsOf "u1" "u2")
    = [("chatA", ["u1"; "u2"]); ("chatB", ["u1"; "u2"])]
  ∧ length (chatsOf (store (run twoScreens race)) (participantsOf "u2" "u1")) = 2%nat.
Proof. vm_compute. done. Qed.

(** ** The order of the messages shown *)
Section Ordering.

Lemma ltb_trans (a b c : string) :
  String.ltb a b = true → String.ltb b c = true → String.ltb a c = true.
Proof.
  unfold String.ltb.
  destruct (String.compare a b) eqn:E1; try done.
  destruct (String.compare b c) eqn:E2; try done.
  intros _ _.
  pose proof (StrictOrder_Transitive (R := OrdersEx.String_as_OT.lt) a b c E1 E2) as H.
  change (String.compare a c = Lt) in H. by rewrite H.
Qed.

Lemma msg_ltb_spec (a b : StoredMsg) :
  msg_ltb a b = true ↔
  (msg_createdAt a < msg_createdAt b)%Z
  ∨ (msg_createdAt a = msg_createdAt b ∧ String.ltb (msg_id a) (msg_id b) = true).
Proof.
  unfold msg_ltb.
  rewrite orb_true_iff, andb_true_iff, Z.ltb_lt, Z.eqb_eq. tauto.
Qed.

Lemma msg_ltb_asym (a b : StoredMsg) : msg_ltb a b = true → msg_ltb b a = false.
Proof.
  intros Hab. apply not_true_is_false. intros Hba.
  apply msg_ltb_spec in Hab, Hba.
  destruct Hab as [?|[? Hab]], Hba as [?|[? Hba]]; try lia.
  apply before_asym in Hab. unfold before in Hab. congruence.
Qed.

Lemma msg_ltb_trans (a b c : StoredMsg) :
  msg_ltb a b = true → msg_ltb b c = true → msg_ltb a c = true.
Proof.
  rewrite !msg_ltb_spec.
  intros [?|[? Hab]] [?|[? Hbc]]; try (left; lia).
  right. split; [lia|]. by apply (ltb_trans _ (msg_id b)).
Qed.

(** Two messages neither of which is before the other have the same
    time and the same id. *)
Lemma msg_ltb_total (a b : StoredMsg) :
  msg_ltb a b = false → msg_ltb b a = false →
  msg_createdAt a = msg_createdAt b ∧ msg_id a = msg_id b.
Proof.
  intros Hab Hba.
  apply not_true_iff_false in Hab, Hba. rewrite msg_ltb_spec in Hab, Hba.
  assert (msg_createdAt a = msg_createdAt b) as Ht by lia.
  split; [done|].
  apply before_total; unfold before; apply not_true_is_false; intros H.
  - apply Hab. by right.
  - apply Hba. by right.
Qed.

Lemma not_before_msg_trans (a b c : StoredMsg) :
  msg_ltb a b = false → msg_ltb b c = false → msg_ltb a c = false.
Proof.
  intros Hab Hbc. apply not_true_is_false. intros Hac.
  destruct (msg_ltb b a) eqn:Hba.
  - rewrite (msg_ltb_trans b a c Hba Hac) in Hbc. done.
  - destruct (msg_ltb_total a b Hab Hba) as [Ht Hi].
    assert (msg_ltb b c = true) as Hbc'; [|congruence].
    apply msg_ltb_spec. apply msg_ltb_spec in Hac.
    rewrite <- Ht, <- Hi. done.
Qed.

Lemma insertDesc_perm (a : StoredMsg) (l : list StoredMsg) :
  insertDesc a l ≡ₚ a :: l.
Proof.
  induction l as [|x l IH]; [done|]. cbn.
  destruct (msg_ltb x a); [done|].
  by rewrite IH, Permutation_swap.
Qed.

Lemma orderByCreatedAtDesc_cons (a : StoredMsg) (l : list StoredMsg) :
  orderByCreatedAtDesc (a :: l) = insertDesc a (orderByCreatedAtDesc l).
Proof. reflexivity. Qed.

Lemma orderByCreatedAtDesc_perm (l : list StoredMsg) :
  orderByCreatedAtDesc l ≡ₚ l.
Proof.
  induction l as [|a l IH]; [done|].
  by rewrite orderByCreatedAtDesc_cons, insertDesc_perm, IH.
Qed.

Lemma insertDesc_sorted (a : StoredMsg) (l : list StoredMsg) :
  StronglySorted not_before_msg l → StronglySorted not_before_msg (insertDesc a l).
Proof.
  induction 1 as [|x l Hl IH Hx]; cbn.
  - repeat constructor.
  - destruct (msg_ltb x a) eqn:Hxa.
    + constructor; [by constructor|].
      constructor; [by apply msg_ltb_asym|].
      eapply Forall_impl; [exact Hx|].
      intros y Hxy. apply (not_before_msg_trans a x y); [|done].
      by apply msg_ltb_asym.
    + constructor; [done|].
      rewrite insertDesc_perm. by constructor.
Qed.

Lemma orderByCreatedAtDesc_sorted (l : list StoredMsg) :
  StronglySorted not_before_msg (orderByCreatedAtDesc l).
Proof.
  induction l as [|a l IH]; [constructor|].
  rewrite orderByCreatedAtDesc_cons. by apply insertDesc_sorted.
Qed.

(** A message that is before all messages of a list goes last. *)
Lemma insertDesc_last (a : StoredMsg) (l : list StoredMsg) :
  Forall (before_msg a) l → insertDesc a l = (l ++ [a])%list.
Proof.
  induction 1 as [|x l Hax _ IH]; [done|]. cbn.
  by rewrite (msg_ltb_asym a x Hax), IH.
Qed.

Lemma orderByCreatedAtDesc_ascending (l : list StoredMsg) :
  Sorted before_msg l → orderByCreatedAtDesc l = reverse l.
Proof.
  intros Hl. apply Sorted_StronglySorted in Hl; [|intros a b c; apply msg_ltb_trans].
  induction Hl as [|a l _ IH Ha]; [done|].
  rewrite orderByCreatedAtDesc_cons, IH, reverse_cons. apply insertDesc_last.
  by rewrite Forall_reverse.
Qed.

Lemma mapDocs_committed (l : list StoredMsg) :
  mapDocs (committed <$> l) = Fulfilled (shown <$> l).
Proof.
  induction l as [|m l IH]; [done|]. cbn. by rewrite IH.
Qed.

End Ordering.

(** C6, as the specification states it, fails.  A screen holds one
    list of messages and no second view: after sends at increasing
    server times that list is newest first, not in append order.  And
    when two messages are committed at the same server time and the id
    generated for the second is the smaller one, the list is not the
    reverse of the append order either. *)
Lemma shown_order_is_not_append_order :
  let later := run conversation (twoSends "a" 2 "b" 3) in
  let tied := run conversation (twoSends "b" 5 "a" 5) in
  let appended (s : System) :=
    (λ m, (msg_id m, msg_text m)) <$> log (store s) "chatA" in
  appended later = [("m0", "hello"); ("a", "first"); ("b", "second")]
  ∧ view later 0 = [("b", "second"); ("a", "first"); ("m0", "hello")]
  ∧ view later 0 ≠ appended later
  ∧ appended tied = [("m0", "hello"); ("b", "first"); ("a", "second")]
  ∧ view tied 0 = [("b", "first"); ("a", "second"); ("m0", "hello")]
  ∧ view tied 1 = view tied 0
  ∧ view tied 0 ≠ reverse (appended tied).
Proof. vm_compute. repeat split; discriminate. Qed.

(** C6, as the code has it: a messages listener hands the screen one
    list, the messages of the chat in the store's descending order of
    ([createdAt], id), one entry per stored message, so without
    duplicate ids when the stored ids are distinct.  When ([createdAt],
    id) strictly increases along the append order, the list is the exact
    reverse of the append order. *)
Theorem messages_shown_newest_first (sc : Screen) (st : Store) (chat : string) :
  chat ∈ listeners sc →
  let shownList := ChatScreen.messages
                     (ui (messagesSnapshot sc chat {| db := st; ui := sc |}).2) in
  shownList = shown <$> orderByCreatedAtDesc (log st chat)
  ∧ StronglySorted not_before_msg (orderByCreatedAtDesc (log st chat))
  ∧ _id <$> shownList ≡ₚ msg_id <$> log st chat
  ∧ (NoDup (msg_id <$> log st chat) → NoDup (_id <$> shownList))
  ∧ (Sorted before_msg (log st chat) →
     shownList = reverse (shown <$> log st chat)).
Proof.
  intros Hin. cbn zeta.
  assert (ChatScreen.messages
            (ui (messagesSnapshot sc chat {| db := st; ui := sc |}).2)
          = shown <$> orderByCreatedAtDesc (log st chat)) as ->.
  { unfold messagesSnapshot, onMessagesSnapshot, messagesQuery.
    rewrite bool_decide_true by done. cbn.
    by rewrite mapDocs_committed. }
  assert (_id <$> (shown <$> orderByCreatedAtDesc (log st chat))
          ≡ₚ msg_id <$> log st chat) as Hperm.
  { rewrite <- list_fmap_compose.
    apply (fmap_Permutation msg_id), orderByCreatedAtDesc_perm. }
  split; [done|].
  split; [apply orderByCreatedAtDesc_sorted|].
  split; [done|].
  split.
  - intros Hnd. by rewrite Hperm.
  - intros Hasc. by rewrite orderByCreatedAtDesc_ascending, fmap_reverse.
Qed.

Lemma messages_shown_newest_first_witness :
  let shownList := ChatScreen.messages
                     (ui (messagesSnapshot listening "chatA"
                            {| db := filled; ui := listening |}).2) in
  shownList = shown <$> orderByCreatedAtDesc (log filled "chatA")
  ∧ StronglySorted not_before_msg (orderByCreatedAtDesc (log filled "chatA"))
  ∧ _id <$> shownList ≡ₚ msg_id <$> log filled "chatA"
  ∧ (NoDup (msg_id <$> log filled "chatA") → NoDup (_id <$> shownList))
  ∧ (Sorted before_msg (log filled "chatA") →
     shownList = reverse (shown <$> log filled "chatA")).
Proof.
  apply messages_shown_newest_first. apply list_elem_of_here.
Defined.

Lemma projection_total_without_timestamp_witness :
  let pending := {| doc_id := "m1"; data_text := "hi"; data_createdAt := Null;
                    data_senderId := "u1"; data_senderName := Some "Alice";
                    data_senderImage := None |} in
  let absent := {| doc_id := "m2"; data_text := "yo"; data_createdAt := Undefined;
                   data_senderId := "u2"; data_senderName := Some "Bob";
                   data_senderImage := None |} in
  mapDocs [pending; absent] = Fulfilled (undated <$> [pending; absent]).
Proof.
  apply projection_total_without_timestamp.
  constructor; [right; reflexivity|].
  constructor; [left; reflexivity|].
  constructor.
Defined.

Lemma fetchUsers_excludes_current_user_witness :
  let docs := [ {| NewChatScreen.doc_id := "u1";
                   NewChatScreen.data_displayName := Some "Alice";
                   NewChatScreen.data_fullName := None;
                   NewChatScreen.data_email := None;
                   NewChatScreen.data_profileImage := None |};
                {| NewChatScreen.doc_id := "u2";
                   NewChatScreen.data_displayName := None;
                   NewChatScreen.data_fullName := Some "Bob B.";
                   NewChatScreen.data_email := Some "bob@example.org";
                   NewChatScreen.data_profileImage := None |} ] in
  let users := NewChatScreen.fetchUsers (Some "u1") docs in
  users = NewChatScreen.toItem
            <$> filter (λ d, NewChatScreen.doc_id d ≠ "u1") docs
  ∧ NewChatScreen.id <$> users
    = filter (λ i, i ≠ "u1") (NewChatScreen.doc_id <$> docs)
  ∧ "u1" ∉ NewChatScreen.id <$> users.
Proof.
  apply fetchUsers_excludes_current_user. discriminate.
Defined.

(** * Further properties of the chat screen *)

(** ** The participants key *)

(** X1: The participants written to a chat document are the two ids, each
    once, in non-descending order. *)
Theorem participants_hold_both_ids (a b : string) :
  participantsOf a b ≡ₚ [a; b]
  ∧ ∃ x y, participantsOf a b = [x; y] ∧ before y x = false.
Proof.
  rewrite participantsOf_unfold.
  destruct (before b a) eqn:Hba.
  - split; [apply Permutation_swap|].
    exists b, a. split; [done|]. by apply before_asym.
  - split; [done|]. by exists a, b.
Qed.

(** X2: Two pairs of ids have the same participants key only when they are
    the same pair, in either order. *)
Theorem pairing_key_injective (a b c d : string) :
  participantsOf a b = participantsOf c d ↔
  (a = c ∧ b = d) ∨ (a = d ∧ b = c).
Proof.
  split.
  - rewrite !participantsOf_unfold.
    destruct (before b a), (before d c); intros [= -> ->]; auto.
  - intros [[-> ->] | [-> ->]]; [done | apply participantsOf_comm].
Qed.

(** ** What one send changes *)
Section SendEffects.

(** The store after an append and after a summary update. *)
Let appended (st : Store) (k : string) (msg : StoredMsg) : Store :=
  {| chats := chats st;
     Firestore.messages := <[k := (log st k ++ [msg])%list]> (Firestore.messages st) |}.

Lemma onSend_known (sc : Screen) (env : Env) (u : User) (m : Message)
    (rest : list Message) (w : World) :
  currentUser sc = Some u → truthy (recipientId sc) = true →
  truthy (chatDocId sc) = true →
  let k := targetRef sc env in
  let msg := newMessage u (text m) env in
  onSend sc env (m :: rest) w =
    if addDoc_rejects env then (Threw (Rejected "addDoc"), w)
    else match chats (db w) !! k with
         | Some d =>
             if updateDoc_rejects env
             then (Threw (Rejected "updateDoc"),
                   {| db := appended (db w) k msg; ui := ui w |})
             else (Fulfilled tt,
                   {| db := {| chats := <[k := summary (text m) (t_updateDoc env) d]>
                                          (chats (db w));
                               Firestore.messages :=
                                 Firestore.messages (appended (db w) k msg) |};
                      ui := ui w |})
         | None => (Threw (Rejected "updateDoc"),
                    {| db := appended (db w) k msg; ui := ui w |})
         end.
Proof.
  intros Hu Hr Hk. cbn zeta.
  assert (returnsEarly sc (m :: rest) = false) as Hgo.
  { unfold returnsEarly. rewrite Hu, Hr. by rewrite bool_decide_true by eauto. }
  destruct (returnsEarly_false _ _ Hgo) as (u' & rid & m' & rest' & _ & Hrid & _ & _).
  run_onSend. rewrite Hgo, Hu, Hrid, Hk.
  destruct (addDoc_rejects env); [done|]. cbn.
  destruct (chats (db w) !! _); [|done].
  by destruct (updateDoc_rejects env).
Qed.

Lemma onSend_first (sc : Screen) (env : Env) (u : User) (rid : string)
    (m : Message) (rest : list Message) (w : World) :
  currentUser sc = Some u → recipientId sc = Some rid → rid ≠ "" →
  truthy (chatDocId sc) = false →
  let k := autoChatId env in
  let msg := newMessage u (text m) env in
  let d := newChat sc u rid (text m) env in
  let ui' := setChatDocId (Some k) (ui w) in
  let created := {| chats := <[k := d]> (chats (db w));
                    Firestore.messages := Firestore.messages (db w) |} in
  onSend sc env (m :: rest) w =
    if setDoc_rejects env then (Threw (Rejected "setDoc"), {| db := db w; ui := ui' |})
    else if addDoc_rejects env
         then (Threw (Rejected "addDoc"), {| db := created; ui := ui' |})
         else if updateDoc_rejects env
              then (Threw (Rejected "updateDoc"),
                    {| db := appended created k msg; ui := ui' |})
              else (Fulfilled tt,
                    {| db := {| chats := <[k := summary (text m) (t_updateDoc env) d]>
                                           (chats created);
                                Firestore.messages :=
                                  Firestore.messages (appended created k msg) |};
                       ui := ui' |}).
Proof.
  intros Hu Hrid Hne Hk. cbn zeta.
  assert (returnsEarly sc (m :: rest) = false) as Hgo.
  { unfold returnsEarly, truthy. rewrite Hu, Hrid.
    rewrite bool_decide_true by eauto. by rewrite (bool_decide_false (rid = "")). }
  run_onSend. rewrite Hgo, Hu, Hrid, Hk.
  destruct (setDoc_rejects env); [done|]. cbn.
  destruct (addDoc_rejects env); [done|]. cbn.
  rewrite lookup_insert_eq.
  by destruct (updateDoc_rejects env).
Qed.

Lemma log_appended_eq (st : Store) (k : string) (msg : StoredMsg) :
  log (appended st k msg) k = (log st k ++ [msg])%list.
Proof. unfold log, appended. cbn. by rewrite lookup_insert_eq. Qed.

Lemma log_appended_ne (st : Store) (k k' : string) (msg : StoredMsg) :
  k ≠ k' → log (appended st k msg) k' = log st k'.
Proof. intros Hne. unfold log, appended. cbn. by rewrite lookup_insert_ne. Qed.

(** The log of every chat after a send is its log before, followed by
    at most one message, and by none for every chat other than the one
    the send writes to. *)
Lemma onSend_log (sc : Screen) (env : Env) (newMessages : list Message)
    (w : World) (k : string) :
  ∃ extra,
    log (db (onSend sc env newMessages w).2) k = (log (db w) k ++ extra)%list
    ∧ (length extra ≤ 1)%nat
    ∧ (k ≠ targetRef sc env → extra = []).
Proof.
  destruct (returnsEarly sc newMessages) eqn:Hgo.
  { rewrite onSend_early by done. exists []. rewrite app_nil_r.
    split; [done|]. split; [cbn; lia|done]. }
  destruct (returnsEarly_false _ _ Hgo) as (u & rid & m & rest & Hu & Hrid & Hne & ->).
  assert (truthy (recipientId sc) = true) as Hr.
  { unfold truthy. rewrite Hrid. by rewrite bool_decide_false. }
  assert (∀ st msg, ∃ extra,
            log (appended st (targetRef sc env) msg) k = (log st k ++ extra)%list
            ∧ (length extra ≤ 1)%nat ∧ (k ≠ targetRef sc env → extra = [])) as Happ.
  { intros st msg. destruct (decide (targetRef sc env = k)) as [<-|Hk].
    - exists [msg]. by rewrite log_appended_eq.
    - exists []. rewrite log_appended_ne, app_nil_r by done.
      split; [done|]. split; [cbn; lia|done]. }
  assert (∃ extra, log (db w) k = (log (db w) k ++ extra)%list
            ∧ (length extra ≤ 1)%nat ∧ (k ≠ targetRef sc env → extra = [])) as Hnone.
  { exists []. rewrite app_nil_r. split; [done|]. split; [cbn; lia|done]. }
  destruct (truthy (chatDocId sc)) eqn:Hk.
  - rewrite (onSend_known sc env u m rest w Hu Hr Hk).
    destruct (Happ (db w) (newMessage u (text m) env)) as (extra & He & Hl & Hn).
    destruct (addDoc_rejects env); [done|].
    destruct (chats (db w) !! _); [|by exists extra].
    destruct (updateDoc_rejects env); by exists extra.
  - rewrite (onSend_first sc env u rid m rest w Hu Hrid Hne Hk).
    assert (targetRef sc env = autoChatId env) as Href by (unfold targetRef; by rewrite Hk).
    destruct (Happ {| chats := <[autoChatId env := newChat sc u rid (text m) env]>
                                 (chats (db w));
                      Firestore.messages := Firestore.messages (db w) |}
                   (newMessage u (text m) env)) as (extra & He & Hl & Hn).
    rewrite Href in He.
    destruct (setDoc_rejects env); [done|].
    destruct (addDoc_rejects env); [done|].
    destruct (updateDoc_rejects env); by exists extra.
Qed.

End SendEffects.

Section SendLemmas.

(** An accepted create (when there is one) and an accepted append leave
    the message at the end of the log of the target chat. *)
Lemma onSend_appended (sc : Screen) (env : Env) (u : User) (m : Message)
    (rest : list Message) (w : World) :
  currentUser sc = Some u → truthy (recipientId sc) = true →
  (truthy (chatDocId sc) = false → setDoc_rejects env = false) →
  addDoc_rejects env = false →
  log (db (onSend sc env (m :: rest) w).2) (targetRef sc env)
  = (log (db w) (targetRef sc env) ++ [newMessage u (text m) env])%list.
Proof.
  intros Hu Hr Hset Hadd.
  destruct (truthy (chatDocId sc)) eqn:Hk.
  - rewrite (onSend_known sc env u m rest w Hu Hr Hk), Hadd.
    destruct (chats (db w) !! _); [destruct (updateDoc_rejects env)|];
      cbn; unfold log; cbn; by rewrite lookup_insert_eq.
  - assert (∃ rid, recipientId sc = Some rid ∧ rid ≠ "") as (rid & Hrid & Hne).
    { unfold truthy in Hr. destruct (recipientId sc) as [rid|]; [|done].
      exists rid. split; [done|]. intros ->. by rewrite bool_decide_true in Hr. }
    rewrite (onSend_first sc env u rid m rest w Hu Hrid Hne Hk), Hset, Hadd by done.
    unfold targetRef. rewrite Hk.
    destruct (updateDoc_rejects env); cbn; unfold log; cbn;
      by rewrite lookup_insert_eq.
Qed.

Lemma truthy_Some (s : string) : truthy (Some s) = true ↔ s ≠ "".
Proof.
  unfold truthy. destruct (decide (s = "")) as [->|Hne].
  - rewrite bool_decide_true by done. cbn. split; [done|]. by intros [].
  - by rewrite bool_decide_false.
Qed.

Lemma truthy_recipient (sc : Screen) :
  truthy (recipientId sc) = true → ∃ rid, recipientId sc = Some rid ∧ rid ≠ "".
Proof.
  destruct (recipientId sc) as [rid|]; [|done].
  intros H%truthy_Some. by exists rid.
Qed.

End SendLemmas.

(** X4: A send never removes a chat document, and it leaves the
    participants, the creation time, the names, the images and the
    vehicle of every document it did not itself create as they were:
    only the last-message summary is rewritten. *)
Theorem send_keeps_chat_identity
    (sc : Screen) (env : Env) (newMessages : list Message) (w : World)
    (k : string) (d : ChatDoc) :
  chats (db w) !! k = Some d →
  truthy (chatDocId sc) = true ∨ k ≠ autoChatId env →
  ∃ d', chats (db (onSend sc env newMessages w).2) !! k = Some d'
        ∧ participants d' = participants d
        ∧ Firestore.createdAt d' = Firestore.createdAt d
        ∧ participantNames d' = participantNames d
        ∧ participantImages d' = participantImages d
        ∧ vehicleName d' = vehicleName d.
Proof.
  intros Hd Hk.
  assert (∀ c : gmap string ChatDoc, ∀ k0 txt t d0,
            c !! k = Some d → c !! k0 = Some d0 →
            ∃ d', <[k0 := summary txt t d0]> c !! k = Some d'
                  ∧ participants d' = participants d
                  ∧ Firestore.createdAt d' = Firestore.createdAt d
                  ∧ participantNames d' = participantNames d
                  ∧ participantImages d' = participantImages d
                  ∧ vehicleName d' = vehicleName d) as Hsum.
  { intros c k0 txt t d0 Hc Hc0. destruct (decide (k0 = k)) as [->|Hne].
    - rewrite lookup_insert_eq. assert (d0 = d) as -> by congruence.
      by eexists.
    - rewrite lookup_insert_ne by done. by exists d. }
  destruct (returnsEarly sc newMessages) eqn:Hgo.
  { rewrite onSend_early by done. by exists d. }
  destruct (returnsEarly_false _ _ Hgo) as (u & rid & m & rest & Hu & Hrid & Hne & ->).
  assert (truthy (recipientId sc) = true) as Hr.
  { rewrite Hrid. by apply truthy_Some. }
  destruct (truthy (chatDocId sc)) eqn:Hknown.
  - rewrite (onSend_known sc env u m rest w Hu Hr Hknown).
    destruct (addDoc_rejects env); [by exists d|].
    destruct (chats (db w) !! targetRef sc env) as [d0|] eqn:Hd0; [|by exists d].
    destruct (updateDoc_rejects env); [by exists d|].
    by apply Hsum.
  - destruct Hk as [?|Hk]; [done|].
    rewrite (onSend_first sc env u rid m rest w Hu Hrid Hne Hknown).
    destruct (setDoc_rejects env); [by exists d|].
    destruct (addDoc_rejects env); cbn; [by rewrite lookup_insert_ne; [exists d|]|].
    destruct (updateDoc_rejects env); cbn.
    + rewrite lookup_insert_ne by done. by exists d.
    + rewrite !lookup_insert_ne by done. by exists d.
Qed.

(** ** Sends that follow one another *)

(** X5: Two sends in a row from one screen that held no chat document id,
    both accepted by the store: the first creates the chat document,
    the second writes to that same document.  One document is added to
    the store, its log holds the two messages in the order they were
    sent, and its summary shows the second text. *)
Theorem second_send_reuses_chat
    (sc : Screen) (u : User) (env1 env2 : Env) (m1 m2 : Message) (w : World) :
  ui w = sc →
  currentUser sc = Some u → truthy (recipientId sc) = true →
  truthy (chatDocId sc) = false →
  autoChatId env1 ≠ "" →
  setDoc_rejects env1 = false → addDoc_rejects env1 = false →
  updateDoc_rejects env1 = false →
  addDoc_rejects env2 = false → updateDoc_rejects env2 = false →
  let w1 := (onSend sc env1 [m1] w).2 in
  let r2 := onSend (ui w1) env2 [m2] w1 in
  r2.1 = Fulfilled tt
  ∧ dom (chats (db r2.2)) = {[autoChatId env1]} ∪ dom (chats (db w))
  ∧ log (db r2.2) (autoChatId env1)
    = (log (db w) (autoChatId env1)
       ++ [newMessage u (text m1) env1; newMessage u (text m2) env2])%list
  ∧ lastMessageText <$> chats (db r2.2) !! autoChatId env1 = Some (text m2)
  ∧ chatDocId (ui r2.2) = Some (autoChatId env1).
Proof.
  intros Hui Hu Hr Hk Hid Hs1 Ha1 Hu1 Ha2 Hu2. cbn zeta.
  destruct (truthy_recipient sc Hr) as (rid & Hrid & Hne).
  rewrite (onSend_first sc env1 u rid m1 [] w Hu Hrid Hne Hk), Hs1, Ha1, Hu1.
  cbn [snd ui db].
  set (sc1 := setChatDocId (Some (autoChatId env1)) (ui w)).
  assert (currentUser sc1 = Some u) as Hu' by (unfold sc1; cbn; by rewrite Hui).
  assert (truthy (recipientId sc1) = true) as Hr' by (unfold sc1; cbn; by rewrite Hui).
  assert (truthy (chatDocId sc1) = true) as Hk' by (by apply truthy_Some).
  rewrite (onSend_known sc1 env2 u m2 [] _ Hu' Hr' Hk'), Ha2.
  assert (targetRef sc1 env2 = autoChatId env1) as ->.
  { unfold targetRef. by rewrite Hk'. }
  cbn [db chats]. rewrite lookup_insert_eq, Hu2. cbn.
  split; [done|].
  split. { rewrite !dom_insert_L. by rewrite !(assoc_L (∪)), !(idemp_L (∪)). }
  split. { unfold log; cbn. rewrite !lookup_insert_eq. cbn. by rewrite <- app_assoc. }
  split; [by rewrite lookup_insert_eq|done].
Qed.

(** X6: A first send whose create is rejected still leaves the generated id
    in the screen's state.  A send made from that state is then taken
    for a send to an existing chat: its message is appended under the
    generated id, the summary update is rejected because there is no
    such document, and the store still has no chat document for it. *)
Theorem send_after_rejected_create
    (sc : Screen) (u : User) (env1 env2 : Env) (m1 m2 : Message) (w : World) :
  ui w = sc →
  currentUser sc = Some u → truthy (recipientId sc) = true →
  truthy (chatDocId sc) = false →
  autoChatId env1 ≠ "" → chats (db w) !! autoChatId env1 = None →
  setDoc_rejects env1 = true → addDoc_rejects env2 = false →
  let r1 := onSend sc env1 [m1] w in
  let r2 := onSend (ui r1.2) env2 [m2] r1.2 in
  r1.1 = Threw (Rejected "setDoc")
  ∧ db r1.2 = db w
  ∧ chatDocId (ui r1.2) = Some (autoChatId env1)
  ∧ r2.1 = Threw (Rejected "updateDoc")
  ∧ chats (db r2.2) = chats (db w)
  ∧ log (db r2.2) (autoChatId env1)
    = (log (db w) (autoChatId env1) ++ [newMessage u (text m2) env2])%list.
Proof.
  intros Hui Hu Hr Hk Hid Hfresh Hs1 Ha2. cbn zeta.
  destruct (truthy_recipient sc Hr) as (rid & Hrid & Hne).
  rewrite (onSend_first sc env1 u rid m1 [] w Hu Hrid Hne Hk), Hs1.
  cbn [fst snd ui db].
  set (sc1 := setChatDocId (Some (autoChatId env1)) (ui w)).
  assert (currentUser sc1 = Some u) as Hu' by (unfold sc1; cbn; by rewrite Hui).
  assert (truthy (recipientId sc1) = true) as Hr' by (unfold sc1; cbn; by rewrite Hui).
  assert (truthy (chatDocId sc1) = true) as Hk' by (by apply truthy_Some).
  rewrite (onSend_known sc1 env2 u m2 [] _ Hu' Hr' Hk'), Ha2.
  assert (targetRef sc1 env2 = autoChatId env1) as ->.
  { unfold targetRef. by rewrite Hk'. }
  cbn [db chats]. rewrite Hfresh. cbn.
  do 5 (split; [done|]).
  unfold log; cbn. by rewrite lookup_insert_eq.
Qed.

(** ** Looking a chat up *)
Section Lookup.

Lemma elem_of_chatsOf (st : Store) (p : list string) (k : string) (d : ChatDoc) :
  (k, d) ∈ chatsOf st p ↔ chats st !! k = Some d ∧ participants d = p.
Proof.
  unfold chatsOf. rewrite list_elem_of_filter, elem_of_map_to_list. cbn. tauto.
Qed.

Lemma chatsOf_nil (st : Store) (p : list string) :
  chatsOf st p = [] ↔ ∀ k d, chats st !! k = Some d → participants d ≠ p.
Proof.
  split.
  - intros Hnil k d Hd Hp.
    assert ((k, d) ∈ chatsOf st p) as Hin by (by apply elem_of_chatsOf).
    rewrite Hnil in Hin. by apply not_elem_of_nil in Hin.
  - intros Hnone. destruct (chatsOf st p) as [|[k d] l] eqn:E; [done|].
    assert ((k, d) ∈ chatsOf st p) as Hin by (rewrite E; left).
    apply elem_of_chatsOf in Hin as [Hd Hp]. by destruct (Hnone k d).
Qed.

Lemma chatsOf_NoDup (st : Store) (p : list string) : NoDup (chatsOf st p).
Proof. apply NoDup_filter, NoDup_map_to_list. Qed.

Lemma NoDup_only {A} (x : A) (l : list A) :
  NoDup l → x ∈ l → (∀ y, y ∈ l → y = x) → l = [x].
Proof.
  intros Hnd Hin Hall. destruct l as [|y [|z l]].
  - by apply not_elem_of_nil in Hin.
  - by rewrite (Hall y) by left.
  - assert (y = x) as -> by (apply Hall; left).
    assert (z = x) as -> by (apply Hall; right; left).
    apply NoDup_cons in Hnd as [Hnot _]. destruct Hnot. left.
Qed.

(** Writing a document of a pair that had none leaves exactly that
    document to be found. *)
Lemma chatsOf_insert (c : gmap string ChatDoc) (ms ms' : gmap string (list StoredMsg))
    (k : string) (d : ChatDoc) (p : list string) :
  participants d = p →
  chatsOf {| chats := c; Firestore.messages := ms |} p = [] →
  chatsOf {| chats := <[k := d]> c; Firestore.messages := ms' |} p = [(k, d)].
Proof.
  intros Hp Hnone. apply NoDup_only.
  - apply chatsOf_NoDup.
  - apply elem_of_chatsOf. cbn. by rewrite lookup_insert_eq.
  - intros [k' d'] [Hd' Hp']%elem_of_chatsOf. cbn in Hd'.
    destruct (decide (k = k')) as [<-|Hne].
    + rewrite lookup_insert_eq in Hd'. congruence.
    + rewrite lookup_insert_ne in Hd' by done.
      rewrite chatsOf_nil in Hnone. by destruct (Hnone k' d').
Qed.

Lemma insertById_perm {A} (x : string * A) (l : list (string * A)) :
  insertById x l ≡ₚ x :: l.
Proof.
  induction l as [|y l IH]; [done|]. cbn.
  destruct (String.ltb y.1 x.1); [|done].
  by rewrite IH, Permutation_swap.
Qed.

Lemma orderById_perm {A} (l : list (string * A)) : orderById l ≡ₚ l.
Proof.
  induction l as [|x l IH]; [done|].
  change (orderById (x :: l)) with (insertById x (orderById l)).
  by rewrite insertById_perm, IH.
Qed.

(** The document the chats query returns is one of the pair's. *)
Lemma chatsQuery_head_Some (st : Store) (p : list string) (kd : string * ChatDoc) :
  head (chatsQuery st p) = Some kd → kd ∈ chatsOf st p.
Proof.
  unfold chatsQuery. intros Hhead.
  rewrite <- (orderById_perm (chatsOf st p)).
  destruct (orderById (chatsOf st p)) as [|x l]; [done|].
  injection Hhead as ->. left.
Qed.

(** It returns none only when the pair has none. *)
Lemma chatsQuery_head_None (st : Store) (p : list string) :
  head (chatsQuery st p) = None → chatsOf st p = [].
Proof.
  unfold chatsQuery. intros Hhead.
  apply Permutation_nil_r. rewrite <- (orderById_perm (chatsOf st p)).
  by destruct (orderById (chatsOf st p)).
Qed.

End Lookup.

(** X8: The look-up of the effect is exact: when it leaves a document id in
    the screen's state, the store holds a chat document under that id
    whose participants are the sorted pair of the user and the
    recipient; when it leaves [null], the store holds no chat document
    of that pair. *)
Theorem lookup_finds_chat_of_pair
    (sc : Screen) (st : Store) (u : User) (rid : string) :
  currentUser sc = Some u → recipientId sc = Some rid → rid ≠ "" →
  match chatDocId (ui (resolve sc st)) with
  | Some k => ∃ d, chats st !! k = Some d
                   ∧ participants d = participantsOf (uid u) rid
  | None => ∀ k d, chats st !! k = Some d →
                   participants d ≠ participantsOf (uid u) rid
  end.
Proof.
  intros Hu Hrid Hne.
  rewrite (resolve_chatDocId sc st u rid Hu Hrid Hne).
  destruct (head (chatsQuery st (participantsOf (uid u) rid))) as [[k d]|] eqn:E.
  - change (∃ d0, chats st !! k = Some d0
                  ∧ participants d0 = participantsOf (uid u) rid).
    exists d. apply (elem_of_chatsOf st (participantsOf (uid u) rid) k d).
    by apply chatsQuery_head_Some.
  - change (∀ k d, chats st !! k = Some d →
                   participants d ≠ participantsOf (uid u) rid).
    by apply chatsOf_nil, chatsQuery_head_None.
Qed.

(** X9: Create, then look up: once a first send has had its create accepted
    for a pair without a chat document, a screen of either participant
    that looks the chat up finds the document that send created,
    whatever became of the append and of the summary update. *)
Theorem created_chat_is_found
    (sc : Screen) (u : User) (rid : string) (env : Env) (m : Message)
    (rest : list Message) (w : World)
    (peer : Screen) (v : User) (pid : string) :
  currentUser sc = Some u → recipientId sc = Some rid → rid ≠ "" →
  truthy (chatDocId sc) = false → setDoc_rejects env = false →
  chatsOf (db w) (participantsOf (uid u) rid) = [] →
  currentUser peer = Some v → recipientId peer = Some pid → pid ≠ "" →
  participantsOf (uid v) pid = participantsOf (uid u) rid →
  chatDocId (ui (resolve peer (db (onSend sc env (m :: rest) w).2)))
  = Some (autoChatId env).
Proof.
  intros Hu Hrid Hne Hk Hset Hnone Hv Hpid Hpne Hsame.
  rewrite (resolve_chatDocId peer _ v pid Hv Hpid Hpne), Hsame.
  rewrite (onSend_first sc env u rid m rest w Hu Hrid Hne Hk), Hset.
  destruct (db w) as [c ms] eqn:Hdb. cbn [chats Firestore.messages] in *.
  assert (∀ ms' d, participants d = participantsOf (uid u) rid →
            head (chatsQuery {| chats := <[autoChatId env := d]> c;
                                Firestore.messages := ms' |}
                             (participantsOf (uid u) rid))
            = Some (autoChatId env, d)) as Hins.
  { intros ms' d Hd. unfold chatsQuery.
    by rewrite (chatsOf_insert c ms ms' _ d _ Hd Hnone). }
  destruct (addDoc_rejects env); cbn [snd db].
  - by rewrite Hins.
  - destruct (updateDoc_rejects env); cbn [snd db].
    + by rewrite Hins.
    + rewrite insert_insert_eq. by rewrite Hins.
Qed.

(** ** Reading messages back *)

(** X10: Send, then read back: once the store has accepted the append of a
    send (and its create, when there is one), a messages listener of the
    chat hands the screen a list that holds the message, with the text
    that was sent, the sender's uid, name and image, and the server time
    of the append as its date. *)
Theorem sent_message_is_shown
    (sc : Screen) (u : User) (env : Env) (m : Message) (rest : list Message)
    (w : World) (reader : Screen) :
  currentUser sc = Some u → truthy (recipientId sc) = true →
  (truthy (chatDocId sc) = false → setDoc_rejects env = false) →
  addDoc_rejects env = false →
  targetRef sc env ∈ listeners reader →
  {| _id := autoMsgId env;
     text := text m;
     createdAt := Some (t_addDoc env);
     user := {| author_id := uid u;
                author_name := Js.or (displayName u) (email u);
                author_avatar := Js.or (profileImage u) None |} |}
  ∈ ChatScreen.messages
      (ui (messagesSnapshot reader (targetRef sc env)
             {| db := db (onSend sc env (m :: rest) w).2; ui := reader |}).2).
Proof.
  intros Hu Hr Hset Hadd Hin.
  unfold messagesSnapshot, onMessagesSnapshot, messagesQuery.
  rewrite bool_decide_true by done. cbn [db].
  rewrite mapDocs_committed. cbn.
  rewrite (onSend_appended sc env u m rest w Hu Hr Hset Hadd).
  change (shown (newMessage u (text m) env)
          ∈ shown <$> orderByCreatedAtDesc
                        (log (db w) (targetRef sc env) ++ [newMessage u (text m) env])).
  apply list_elem_of_fmap_2. rewrite orderByCreatedAtDesc_perm.
  apply elem_of_app. right. left.
Qed.

(** X11: A messages listener shows the whole snapshot when it can: when
    every document has a timestamp, a pending one or none under
    [createdAt], the callback ends normally and the screen's list becomes
    one message per document, in the order of the snapshot, with the ids
    and texts of the documents. *)
Theorem messages_listener_shows_snapshot (docs : list MsgDoc) (w : World) :
  Forall (λ d, ∀ s, data_createdAt d ≠ Other s) docs →
  (onMessagesSnapshot docs w).1 = Fulfilled tt
  ∧ _id <$> ChatScreen.messages (ui (onMessagesSnapshot docs w).2) = doc_id <$> docs
  ∧ text <$> ChatScreen.messages (ui (onMessagesSnapshot docs w).2)
    = data_text <$> docs
  ∧ db (onMessagesSnapshot docs w).2 = db w.
Proof.
  unfold onMessagesSnapshot. intros Hok.
  assert (∃ ms, mapDocs docs = Fulfilled ms
                ∧ _id <$> ms = doc_id <$> docs
                ∧ text <$> ms = data_text <$> docs) as (ms & -> & Hids & Htexts).
  { induction Hok as [|d docs Hd _ (ms & IH & Hids & Htexts)]; [by exists []|].
    cbn. rewrite IH. unfold toMessage.
    destruct (data_createdAt d) as [| |t|s] eqn:E; cbn;
      try (eexists; split; [done|]; cbn; by rewrite Hids, Htexts).
    by destruct (Hd s). }
  done.
Qed.

(** X12: One malformed document hides a whole update: when some document of
    the snapshot holds something other than a timestamp under
    [createdAt], the callback of the messages listener throws, and the
    list the screen held, like everything else, stays as it was. *)
Theorem messages_listener_drops_snapshot (docs : list MsgDoc) (w : World) :
  Exists (λ d, ∃ s, data_createdAt d = Other s) docs →
  failed (onMessagesSnapshot docs w).1 = true
  ∧ (onMessagesSnapshot docs w).2 = w.
Proof.
  unfold onMessagesSnapshot. intros Hbad.
  assert (∃ e, mapDocs docs = Threw e) as [e ->]; [|done].
  induction Hbad as [d docs [s Hd] | d docs _ [e IH]]; cbn.
  - unfold toMessage. rewrite Hd. cbn. by eexists.
  - rewrite IH. destruct (toMessage d); by eexists.
Qed.

(** * The sign-in effect of the chat screen *)

(** X13: While no user is known to the screen it touches nothing.  The
    sign-in callback leaves [currentUser] unset both when nobody is
    signed in (it then asks for the login route and ends the loading
    state) and when the read of the user's document is rejected (it then
    ends by throwing and the loading state stays as it was); in either
    case the chats listener and a send on the resulting screen leave the
    store and the screen as they are. *)
Theorem chat_screen_without_user_is_inert
    (users : gmap string ChatAuth.Profile) (sh : ChatAuth.Shell)
    (user : option ChatAuth.AuthUser) (rejects : bool)
    (st : Store) (env : Env) (newMessages : list Message) :
  currentUser (ChatAuth.screen sh) = None →
  user = None ∨ rejects = true →
  let r := ChatAuth.onAuthStateChanged users rejects user sh in
  let w := {| db := st; ui := ChatAuth.screen r.2 |} in
  (user = None →
     r.1 = Fulfilled tt ∧ ChatAuth.loading r.2 = false
     ∧ ChatAuth.replaced r.2 = (ChatAuth.replaced sh ++ ["/login"])%list)
  ∧ (user ≠ None →
     failed r.1 = true ∧ ChatAuth.loading r.2 = ChatAuth.loading sh
     ∧ ChatAuth.replaced r.2 = ChatAuth.replaced sh)
  ∧ chatsSnapshot (ChatAuth.screen r.2) w = (Fulfilled tt, w)
  ∧ onSend (ChatAuth.screen r.2) env newMessages w = (Fulfilled tt, w).
Proof.
  intros Hnone Hcase. cbn zeta.
  assert (currentUser (ChatAuth.screen
            (ChatAuth.onAuthStateChanged users rejects user sh).2) = None) as Hstill.
  { unfold ChatAuth.onAuthStateChanged.
    destruct user as [user|]; [|done].
    destruct Hcase as [?| ->]; done. }
  split; [|split; [|split]].
  - by intros ->.
  - intros Hsome. destruct user as [user|]; [|done].
    destruct Hcase as [?| ->]; done.
  - unfold chatsSnapshot, effectRuns. rewrite Hstill.
    by rewrite bool_decide_false by (by intros [??]).
  - apply onSend_early. unfold returnsEarly. rewrite Hstill.
    by rewrite bool_decide_false by (by intros [??]).
Qed.

(** X14: A user without a document in [users] writes under their e-mail
    address.  After the sign-in callback has run for such a user, the
    loading state is over and no login route is asked for; the message
    stored by a first send carries the auth uid as sender, the auth
    e-mail (when it is not empty) as sender name and no image, and the
    chat document it creates names that participant the same way. *)
Theorem user_without_profile_is_named_by_email
    (users : gmap string ChatAuth.Profile) (sh : ChatAuth.Shell)
    (user : ChatAuth.AuthUser) (rid : string) (env : Env) (m : Message)
    (rest : list Message) (st : Store) :
  users !! ChatAuth.auth_uid user = None →
  recipientId (ChatAuth.screen sh) = Some rid → rid ≠ "" →
  rid ≠ ChatAuth.auth_uid user →
  truthy (chatDocId (ChatAuth.screen sh)) = false →
  setDoc_rejects env = false → addDoc_rejects env = false →
  let r := ChatAuth.onAuthStateChanged users false (Some user) sh in
  let sc := ChatAuth.screen r.2 in
  let w' := (onSend sc env (m :: rest) {| db := st; ui := sc |}).2 in
  let name := if truthy (ChatAuth.auth_email user)
              then ChatAuth.auth_email user else None in
  r.1 = Fulfilled tt ∧ ChatAuth.loading r.2 = false
  ∧ ChatAuth.replaced r.2 = ChatAuth.replaced sh
  ∧ last (log (db w') (autoChatId env))
    = Some {| msg_id := autoMsgId env; msg_text := text m;
              msg_createdAt := t_addDoc env;
              senderId := ChatAuth.auth_uid user;
              senderName := name; senderImage := None |}
  ∧ ∃ d, chats (db w') !! autoChatId env = Some d
         ∧ participantNames d !! ChatAuth.auth_uid user = Some name.
Proof.
  intros Hnoprofile Hrid Hne Hother Hk Hset Hadd. cbn zeta.
  unfold ChatAuth.onAuthStateChanged. rewrite Hnoprofile. cbn [fst snd].
  do 3 (split; [done|]).
  set (u := ChatAuth.withoutProfile user).
  set (sc := ChatAuth.setCurrentUser u (ChatAuth.screen sh)).
  assert (currentUser sc = Some u) as Hu by done.
  assert (recipientId sc = Some rid) as Hrid' by done.
  assert (truthy (chatDocId sc) = false) as Hk' by done.
  rewrite (onSend_first sc env u rid m rest _ Hu Hrid' Hne Hk'), Hset, Hadd.
  assert (Js.or (displayName u) (email u)
          = if truthy (ChatAuth.auth_email user)
            then ChatAuth.auth_email user else None) as Hname.
  { unfold Js.or, u. cbn. by destruct (truthy (ChatAuth.auth_email user)). }
  split.
  - destruct (updateDoc_rejects env); cbn [snd db]; unfold log; cbn;
      rewrite lookup_insert_eq; cbn; rewrite last_snoc;
      unfold newMessage; by rewrite Hname.
  - assert (participantNames (newChat sc u rid (text m) env) !! uid u
            = Some (Js.or (displayName u) (email u))) as Hnames.
    { unfold newChat. cbn [participantNames].
      rewrite lookup_insert_ne by done. apply lookup_singleton_eq. }
    rewrite Hname in Hnames.
    destruct (updateDoc_rejects env); cbn [snd db chats];
      rewrite ?insert_insert_eq, lookup_insert_eq; eexists; (split; [done|]);
      exact Hnames.
Qed.

(** * Searching and choosing a user on the new-chat screen *)
Section Search.

Lemma includes_empty (s : string) : NewChatSearch.includes s "" = true.
Proof. by destruct s. Qed.

Lemma toItem_id (d : NewChatScreen.UserDoc) :
  NewChatScreen.id (NewChatScreen.toItem d) = NewChatScreen.doc_id d.
Proof. reflexivity. Qed.

(** The users offered to [currentUserUid], taken apart. *)
Lemma elem_of_fetchUsers (currentUserUid : string) (docs : list NewChatScreen.UserDoc)
    (item : NewChatScreen.UserItem) :
  currentUserUid ≠ "" →
  item ∈ NewChatScreen.fetchUsers (Some currentUserUid) docs ↔
  ∃ d, item = NewChatScreen.toItem d ∧ d ∈ docs
       ∧ NewChatScreen.doc_id d ≠ currentUserUid.
Proof.
  intros Hne. unfold NewChatScreen.fetchUsers, NewChatScreen.fetchedUsers.
  rewrite (proj2 (truthy_Some currentUserUid) Hne). cbn [default].
  rewrite list_elem_of_fmap. split.
  - intros (d & -> & [Hd Hin]%list_elem_of_filter). by exists d.
  - intros (d & -> & Hin & Hd). exists d. split; [done|].
    by apply list_elem_of_filter.
Qed.

Lemma filteredUsers_unnamed (toLowerCase : string → string) (searchQuery : string)
    (users : list NewChatScreen.UserItem) (item : NewChatScreen.UserItem) :
  item ∈ users → NewChatScreen.displayName item = None →
  failed (NewChatSearch.filteredUsers toLowerCase searchQuery users) = true.
Proof.
  intros Hin Hnoname.
  induction Hin as [item users | item other users _ IH].
  - cbn. by rewrite Hnoname.
  - cbn. destruct (NewChatScreen.displayName other); [|done].
    specialize (IH Hnoname).
    by destruct (NewChatSearch.filteredUsers _ _ users).
Qed.

End Search.

(** X15: With an empty search text every offered user is listed, in the
    order of the offer, provided each has a name to show and the host's
    [toLowerCase] maps the empty text to itself. *)
Theorem empty_search_lists_everyone
    (toLowerCase : string → string) (users : list NewChatScreen.UserItem) :
  toLowerCase "" = "" →
  Forall (λ user, is_Some (NewChatScreen.displayName user)) users →
  NewChatSearch.filteredUsers toLowerCase "" users = Fulfilled users.
Proof.
  intros Hlow Hnamed.
  induction Hnamed as [|user users [name Hname] _ IH]; [done|].
  cbn. by rewrite Hname, IH, Hlow, includes_empty.
Qed.

(** X16: One user document without a display name, a full name and an
    e-mail makes the search throw for every search text: the offered
    user has no name, and reading [toLowerCase] off it fails before any
    user is listed. *)
Theorem unnamed_user_breaks_search
    (toLowerCase : string → string) (searchQuery currentUserUid : string)
    (docs : list NewChatScreen.UserDoc) (d : NewChatScreen.UserDoc) :
  currentUserUid ≠ "" →
  d ∈ docs → NewChatScreen.doc_id d ≠ currentUserUid →
  truthy (NewChatScreen.data_displayName d) = false →
  truthy (NewChatScreen.data_fullName d) = false →
  NewChatScreen.data_email d = None →
  failed (NewChatSearch.filteredUsers toLowerCase searchQuery
            (NewChatScreen.fetchUsers (Some currentUserUid) docs)) = true.
Proof.
  intros Hne Hin Hd Hdn Hfn Hem.
  assert (NewChatScreen.toItem d
          ∈ NewChatScreen.fetchUsers (Some currentUserUid) docs) as Hitem.
  { apply elem_of_fetchUsers; [done|]. by exists d. }
  assert (NewChatScreen.displayName (NewChatScreen.toItem d) = None) as Hnoname.
  { unfold NewChatScreen.toItem, Js.or. cbn. by rewrite Hdn, Hfn. }
  by apply (filteredUsers_unnamed _ _ _ (NewChatScreen.toItem d)).
Qed.

(** * The booking history screen *)
Section Bookings.

Lemma elem_of_bookingsQuery (st : History.Store) (user selected : string)
    (k : string) (data : History.BookingDoc) :
  (k, data) ∈ History.bookingsQuery st user selected ↔
  History.bookingDocs st !! k = Some data
  ∧ History.data_userId data = Some user
  ∧ (selected = "All" ∨ History.data_status data = Some selected).
Proof.
  unfold History.bookingsQuery, History.matches.
  rewrite orderById_perm, list_elem_of_filter, elem_of_map_to_list. cbn.
  rewrite andb_true_iff, orb_true_iff, !bool_decide_eq_true. tauto.
Qed.

Lemma bookingsQuery_NoDup (st : History.Store) (user selected : string) :
  NoDup (History.bookingsQuery st user selected).*1.
Proof.
  unfold History.bookingsQuery. rewrite orderById_perm.
  apply (sublist_NoDup _ (map_to_list (History.bookingDocs st)).*1).
  - apply NoDup_fst_map_to_list.
  - apply fmap_sublist, sublist_filter.
Qed.

Lemma toBooking_id (h : History.Host) (k : string) (data : History.BookingDoc) :
  History.id (History.toBooking h k data) = k.
Proof. reflexivity. Qed.

(** The bookings a successful fetch leaves in the state. *)
Lemma fetchBookings_ok (h : History.Host) (closure : History.State)
    (user : History.AuthUser) (w : History.World) :
  History.currentUser closure = Some user →
  History.bookings (History.ui (History.fetchBookings h closure None w))
  = (λ kv, History.toBooking h kv.1 kv.2)
      <$> History.bookingsQuery (History.db w) (History.uid user)
            (History.selectedStatus closure).
Proof. intros Hu. unfold History.fetchBookings. by rewrite Hu. Qed.

Lemma elem_of_fetched (h : History.Host) (closure : History.State)
    (user : History.AuthUser) (w : History.World) (b : History.Booking) :
  History.currentUser closure = Some user →
  b ∈ History.bookings (History.ui (History.fetchBookings h closure None w)) ↔
  ∃ data,
    History.bookingDocs (History.db w) !! History.id b = Some data
    ∧ History.data_userId data = Some (History.uid user)
    ∧ (History.selectedStatus closure = "All"
       ∨ History.data_status data = Some (History.selectedStatus closure))
    ∧ b = History.toBooking h (History.id b) data.
Proof.
  intros Hu. rewrite (fetchBookings_ok h closure user w Hu), list_elem_of_fmap.
  split.
  - intros ([k data] & -> & Hin%elem_of_bookingsQuery).
    destruct Hin as (Hd & Huser & Hstatus).
    exists data. rewrite toBooking_id. by cbn.
  - intros (data & Hd & Huser & Hstatus & Hb).
    exists (History.id b, data). split; [done|].
    by apply elem_of_bookingsQuery.
Qed.

End Bookings.

(** X18: A fetch for a signed-in user lists exactly that user's bookings of
    the selected status: a booking is listed if and only if the store
    holds a document under its id whose [userId] is the user's uid and,
    unless the selected status is ["All"], whose [status] is the selected
    one; and no id is listed twice. *)
Theorem fetched_bookings_are_the_users
    (h : History.Host) (closure : History.State) (user : History.AuthUser)
    (w : History.World) :
  History.currentUser closure = Some user →
  let listed := History.bookings
                  (History.ui (History.fetchBookings h closure None w)) in
  (∀ b, b ∈ listed ↔
        ∃ data,
          History.bookingDocs (History.db w) !! History.id b = Some data
          ∧ History.data_userId data = Some (History.uid user)
          ∧ (History.selectedStatus closure = "All"
             ∨ History.data_status data = Some (History.selectedStatus closure))
          ∧ b = History.toBooking h (History.id b) data)
  ∧ NoDup (History.id <$> listed).
Proof.
  intros Hu. cbn zeta. split.
  - intros b. by apply elem_of_fetched.
  - rewrite (fetchBookings_ok h closure user w Hu), <- list_fmap_compose.
    apply (bookingsQuery_NoDup (History.db w) (History.uid user)
             (History.selectedStatus closure)).
Qed.

(** X19: However a fetch ends, it writes nothing to the store and leaves
    neither the loading nor the refreshing state on.  Without a user it
    empties the list and shows no alert; when the read is rejected it
    keeps the list that was shown and adds one alert with the message of
    the rejection. *)
Theorem fetch_always_ends_loading
    (h : History.Host) (closure : History.State) (error : option string)
    (w : History.World) :
  let w' := History.fetchBookings h closure error w in
  History.db w' = History.db w
  ∧ History.loading (History.ui w') = false
  ∧ History.refreshing (History.ui w') = false
  ∧ (History.currentUser closure = None →
     History.bookings (History.ui w') = [] ∧ History.alerts w' = History.alerts w)
  ∧ (∀ message, History.currentUser closure ≠ None → error = Some message →
     History.bookings (History.ui w') = History.bookings (History.ui w)
     ∧ History.alerts w'
       = (History.alerts w ++ [("Error loading bookings", message)])%list).
Proof.
  cbn zeta. unfold History.fetchBookings.
  destruct (History.currentUser closure) as [user|]; [destruct error|];
    cbn; repeat split; try done; congruence.
Qed.

(** Signing out empties the list, and a refresh does not bring it
    back: after the auth callback has run without a user the list is
    empty and neither loading nor refreshing; a fetch made from that
    state leaves the list empty, reads and writes nothing, and shows no
    alert even when the read would have been rejected. *)
Lemma sign_out_empties_bookings
    (h : History.Host) (w : History.World) (error : option string) :
  let st := History.onAuthStateChanged None (History.ui w) in
  let w' := History.fetchBookings h st error
              {| History.db := History.db w; History.ui := st;
                 History.alerts := History.alerts w |} in
  History.bookings st = [] ∧ History.currentUser st = None
  ∧ History.loading st = false ∧ History.refreshing st = false
  ∧ History.bookings (History.ui w') = []
  ∧ History.db w' = History.db w
  ∧ History.alerts w' = History.alerts w.
Proof. done. Qed.

(** X20: A booking document without a [status] field is listed under ["All"]
    with the status ["Pending"], but it is not listed when the selected
    status is ["Pending"]. *)
Theorem booking_without_status_is_pending_only_under_all
    (h : History.Host) (all pending : History.State) (user : History.AuthUser)
    (w : History.World) (k : string) (data : History.BookingDoc) :
  History.currentUser all = Some user →
  History.currentUser pending = Some user →
  History.selectedStatus all = "All" →
  History.selectedStatus pending = "Pending" →
  History.bookingDocs (History.db w) !! k = Some data →
  History.data_userId data = Some (History.uid user) →
  History.data_status data = None →
  (∃ b, b ∈ History.bookings (History.ui (History.fetchBookings h all None w))
        ∧ History.id b = k ∧ History.status b = "Pending")
  ∧ ∀ b, b ∈ History.bookings (History.ui (History.fetchBookings h pending None w)) →
         History.id b ≠ k.
Proof.
  intros Hu1 Hu2 Hall Hpending Hd Huser Hstatus. split.
  - exists (History.toBooking h k data). split; [|split; [done|]].
    + apply (elem_of_fetched h all user w _ Hu1). exists data.
      rewrite toBooking_id. by auto.
    + cbn. by rewrite Hstatus.
  - intros b Hb Hk.
    apply (elem_of_fetched h pending user w b Hu2) in Hb
      as (data' & Hd' & _ & Hsel & _).
    rewrite Hk in Hd'. rewrite Hpending in Hsel.
    destruct Hsel as [?|Hsel]; [done|]. congruence.
Qed.

(** X21: The status filter and the card disagree on spelling.  Every booking
    listed under one of the offered statuses other than ["All"] carries
    that status as written in the filter; the card compares with the
    lower-case names, so such a booking gets the default colour and its
    footer offers the details and the contact but neither the review
    button nor the reviewed mark. *)
Theorem bookings_of_a_status_filter_cannot_be_reviewed
    (h : History.Host) (closure : History.State) (user : History.AuthUser)
    (w : History.World) (b : History.Booking) :
  History.currentUser closure = Some user →
  History.selectedStatus closure ∈ History.statusOptions →
  History.selectedStatus closure ≠ "All" →
  b ∈ History.bookings (History.ui (History.fetchBookings h closure None w)) →
  History.status b = History.selectedStatus closure
  ∧ History.getStatusColor (History.status b) = "#9E9E9E"
  ∧ History.footer b = [History.ViewDetails; History.Contact].
Proof.
  intros Hu Hopt Hnotall (data & _ & _ & Hsel & ->)%(elem_of_fetched h closure user w b Hu).
  destruct Hsel as [?|Hsel]; [done|].
  assert (History.status (History.toBooking h (History.id b) data)
          = History.selectedStatus closure) as Hstatus.
  { cbn. by rewrite Hsel. }
  split; [done|].
  unfold History.footer. rewrite Hstatus.
  unfold History.statusOptions in Hopt.
  repeat (apply elem_of_cons in Hopt as [Hopt|Hopt]; [rewrite Hopt in *; try done|]).
  by apply not_elem_of_nil in Hopt.
Qed.

(** ** Reviews *)
Section Reviews.

Context (h : History.Host) (closure : History.State)
  (booking : History.Booking) (user : History.AuthUser).
Hypothesis Hbooking : History.bookingToReview closure = Some booking.
Hypothesis Hrating : History.rating closure ≠ 0.
Hypothesis Huser : History.currentUser closure = Some user.

(** The store accepts the review and rejects marking the booking. *)
Lemma submit_marking_rejected (env : History.Env) (w : History.World)
    (data : History.BookingDoc) (message : string) :
  History.bookingDocs (History.db w) !! History.id booking = Some data →
  History.addDoc_error env = None →
  History.updateDoc_error env = Some message →
  History.handleSubmitReview h closure env w
  = {| History.db :=
         {| History.bookingDocs := History.bookingDocs (History.db w);
            History.reviews :=
              (History.reviews (History.db w)
               ++ [History.reviewOf closure booking user env])%list |};
       History.ui := History.ui w;
       History.alerts :=
         (History.alerts w
          ++ [("Error", String.append "Failed to submit review: " message)])%list |}.
Proof.
  intros Hd Hadd Hupd. unfold History.handleSubmitReview.
  by rewrite Hbooking, bool_decide_false, Huser, Hadd, Hd, Hupd.
Qed.

(** The store accepts both steps; the refresh follows. *)
Lemma submit_accepted (env : History.Env) (w : History.World)
    (data : History.BookingDoc) :
  History.bookingDocs (History.db w) !! History.id booking = Some data →
  History.addDoc_error env = None →
  History.updateDoc_error env = None →
  History.handleSubmitReview h closure env w
  = History.fetchBookings h closure (History.getDocs_error env)
      {| History.db :=
           {| History.bookingDocs :=
                <[History.id booking := History.markReviewed data]>
                  (History.bookingDocs (History.db w));
              History.reviews :=
                (History.reviews (History.db w)
                 ++ [History.reviewOf closure booking user env])%list |};
         History.ui := History.closeReviewModal (History.ui w);
         History.alerts :=
           (History.alerts w ++ [("Success", "Your review has been submitted!")])%list |}.
Proof.
  intros Hd Hadd Hupd. unfold History.handleSubmitReview.
  by rewrite Hbooking, bool_decide_false, Huser, Hadd, Hd, Hupd.
Qed.

Lemma fetchBookings_db (closure' : History.State) (error : option string)
    (w : History.World) :
  History.db (History.fetchBookings h closure' error w) = History.db w.
Proof.
  unfold History.fetchBookings.
  destruct (History.currentUser closure'); [destruct error|]; done.
Qed.

End Reviews.

(** X22: Without a booking to review or with a rating of zero, submitting
    writes nothing: the store and the form stay as they are and one
    alert asks for a rating. *)
Theorem submit_without_rating_writes_nothing
    (h : History.Host) (closure : History.State) (env : History.Env)
    (w : History.World) :
  History.bookingToReview closure = None ∨ History.rating closure = 0 →
  let w' := History.handleSubmitReview h closure env w in
  History.db w' = History.db w
  ∧ History.ui w' = History.ui w
  ∧ History.alerts w'
    = (History.alerts w ++ [("Error", "Please provide a rating and a review.")])%list.
Proof.
  intros Hguard. cbn zeta. unfold History.handleSubmitReview.
  destruct (History.bookingToReview closure) as [booking|]; [|done].
  destruct Hguard as [?|Hzero]; [done|].
  by rewrite bool_decide_true.
Qed.

(** X23: A submitted review that the store accepts is stored once, with the
    booking's id, vehicle and owner, the user's uid, the rating, the
    text as typed (an empty text included) and the time of the clock;
    the booking document is marked as reviewed and keeps its other
    fields; the form is closed and reset.  This holds whether or not
    the refresh that follows succeeds. *)
Theorem accepted_review_is_stored
    (h : History.Host) (closure : History.State) (env : History.Env)
    (w : History.World) (booking : History.Booking) (user : History.AuthUser)
    (data : History.BookingDoc) :
  History.bookingToReview closure = Some booking →
  History.rating closure ≠ 0 →
  History.currentUser closure = Some user →
  History.bookingDocs (History.db w) !! History.id booking = Some data →
  History.addDoc_error env = None → History.updateDoc_error env = None →
  let w' := History.handleSubmitReview h closure env w in
  History.reviews (History.db w')
  = (History.reviews (History.db w)
     ++ [ {| History.review_id := History.autoReviewId env;
             History.review_bookingId := History.id booking;
             History.review_userId := History.uid user;
             History.review_vehicleId := History.vehicleId booking;
             History.review_ownerId := History.ownerId booking;
             History.review_rating := History.rating closure;
             History.review_text := History.reviewText closure;
             History.review_timestamp := History.now env |} ])%list
  ∧ History.bookingDocs (History.db w')
    = <[History.id booking := History.markReviewed data]>
        (History.bookingDocs (History.db w))
  ∧ History.reviewModalVisible (History.ui w') = false
  ∧ History.bookingToReview (History.ui w') = None
  ∧ History.rating (History.ui w') = 0
  ∧ History.reviewText (History.ui w') = "".
Proof.
  intros Hb Hrating Hu Hd Hadd Hupd. cbn zeta.
  rewrite (submit_accepted h closure booking user Hb Hrating Hu env w data Hd Hadd Hupd).
  rewrite fetchBookings_db. unfold History.fetchBookings. rewrite Hu.
  by destruct (History.getDocs_error env).
Qed.

(** X24: Review once: after an accepted review and a successful refresh, the
    booking, if it is listed, is listed as reviewed; its card no longer
    offers the review button, and pressing review on it opens no form
    but shows the alert that it was reviewed already. *)
Theorem reviewed_booking_cannot_be_reviewed_again
    (h : History.Host) (closure : History.State) (env : History.Env)
    (w : History.World) (booking : History.Booking) (user : History.AuthUser)
    (data : History.BookingDoc) (b : History.Booking) :
  History.bookingToReview closure = Some booking →
  History.rating closure ≠ 0 →
  History.currentUser closure = Some user →
  History.bookingDocs (History.db w) !! History.id booking = Some data →
  History.addDoc_error env = None → History.updateDoc_error env = None →
  History.getDocs_error env = None →
  b ∈ History.bookings (History.ui (History.handleSubmitReview h closure env w)) →
  History.id b = History.id booking →
  let w' := History.handleSubmitReview h closure env w in
  History.hasReviewed b = true
  ∧ ¬ (History.LeaveReview ∈ History.footer b)
  ∧ History.reviewModalVisible (History.ui (History.handleReviewPress b w')) = false
  ∧ History.bookingToReview (History.ui (History.handleReviewPress b w')) = None
  ∧ History.alerts (History.handleReviewPress b w')
    = (History.alerts w'
       ++ [("Already Reviewed",
            "You have already submitted a review for this booking.")])%list.
Proof.
  intros Hb Hrating Hu Hd Hadd Hupd Hget. cbn zeta.
  rewrite (submit_accepted h closure booking user Hb Hrating Hu env w data Hd Hadd Hupd).
  rewrite Hget.
  set (w2 := {| History.db := _; History.ui := _; History.alerts := _ |}).
  intros Hin Hid.
  apply (elem_of_fetched h closure user w2 b Hu) in Hin
    as (data' & Hd' & _ & _ & Hbd).
  rewrite Hid in Hd'. unfold w2 in Hd'. cbn in Hd'.
  rewrite lookup_insert_eq in Hd'. injection Hd' as <-.
  assert (History.hasReviewed b = true) as Hrev by (by rewrite Hbd).
  split; [done|].
  split.
  { unfold History.footer. rewrite Hrev.
    destruct (bool_decide _); cbn; intros Hin;
      repeat (apply elem_of_cons in Hin as [Hin|Hin]; [discriminate Hin|]);
      by apply not_elem_of_nil in Hin. }
  unfold History.handleReviewPress. rewrite Hrev. cbn [History.ui History.alerts].
  unfold History.fetchBookings. rewrite Hu. by cbn.
Qed.

(** X25: A review whose second step fails can be given again.  When the
    store accepts the review but rejects marking the booking, the review
    stays stored, the booking stays unmarked and the form stays open
    with its rating and text; submitting the same form once more, now
    accepted, stores a second review of the same booking by the same
    user. *)
Theorem review_is_stored_twice_after_failed_marking
    (h : History.Host) (closure : History.State) (env1 env2 : History.Env)
    (w : History.World) (booking : History.Booking) (user : History.AuthUser)
    (data : History.BookingDoc) (message : string) :
  History.bookingToReview closure = Some booking →
  History.rating closure ≠ 0 →
  History.currentUser closure = Some user →
  History.bookingDocs (History.db w) !! History.id booking = Some data →
  History.addDoc_error env1 = None → History.updateDoc_error env1 = Some message →
  History.addDoc_error env2 = None → History.updateDoc_error env2 = None →
  let w1 := History.handleSubmitReview h closure env1 w in
  let w2 := History.handleSubmitReview h closure env2 w1 in
  History.bookingDocs (History.db w1) = History.bookingDocs (History.db w)
  ∧ History.ui w1 = History.ui w
  ∧ History.alerts w1
    = (History.alerts w
       ++ [("Error", String.append "Failed to submit review: " message)])%list
  ∧ ∃ r1 r2,
      History.reviews (History.db w2)
      = (History.reviews (History.db w) ++ [r1; r2])%list
      ∧ History.review_bookingId r1 = History.id booking
      ∧ History.review_bookingId r2 = History.id booking
      ∧ History.review_userId r1 = History.uid user
      ∧ History.review_userId r2 = History.uid user
      ∧ History.review_id r1 = History.autoReviewId env1
      ∧ History.review_id r2 = History.autoReviewId env2.
Proof.
  intros Hb Hrating Hu Hd Ha1 Hu1 Ha2 Hu2. cbn zeta.
  rewrite (submit_marking_rejected h closure booking user Hb Hrating Hu
             env1 w data message Hd Ha1 Hu1).
  cbn [History.db History.ui History.alerts History.bookingDocs].
  do 3 (split; [done|]).
  rewrite (submit_accepted h closure booking user Hb Hrating Hu env2 _ data)
    by done.
  rewrite fetchBookings_db. cbn [History.db History.reviews].
  exists (History.reviewOf closure booking user env1),
         (History.reviewOf closure booking user env2).
  split; [by rewrite <- app_assoc|done].
Qed.

(** * The store along a run *)
Section Runs.

Lemma onSend_first_created (sc : Screen) (env : Env) (u : User) (rid : string)
    (m : Message) (rest : list Message) (w : World) :
  currentUser sc = Some u → recipientId sc = Some rid → rid ≠ "" →
  truthy (chatDocId sc) = false → setDoc_rejects env = false →
  (∃ d, chats (db (onSend sc env (m :: rest) w).2) !! autoChatId env = Some d
        ∧ participants d = participantsOf (uid u) rid)
  ∧ ∀ k, k ≠ autoChatId env →
         chats (db (onSend sc env (m :: rest) w).2) !! k = chats (db w) !! k.
Proof.
  intros Hu Hrid Hne Hk Hset.
  rewrite (onSend_first sc env u rid m rest w Hu Hrid Hne Hk), Hset.
  destruct (addDoc_rejects env); [|destruct (updateDoc_rejects env)];
    cbn [snd db chats]; (split;
      [ rewrite ?insert_insert_eq, lookup_insert_eq; by eexists
      | intros k Hkne; by rewrite !lookup_insert_ne ]).
Qed.

Lemma step_store (s : System) (e : Event) :
  store (step s e) = store s
  ∨ ∃ sc c env newMessages,
      e = Send c env newMessages
      ∧ store (step s e)
        = db (onSend sc env newMessages {| db := store s; ui := sc |}).2.
Proof.
  unfold step. destruct (screens s !! screenOf e) as [sc|] eqn:Hsc; [|by left].
  destruct e as [c|c chat|c env newMessages]; cbn.
  - left. apply chatsSnapshot_db.
  - left. apply messagesSnapshot_db.
  - right. by exists sc, c, env, newMessages.
Qed.

End Runs.

(** X3: The store only grows.  One event appends at most one message to
    the log of a chat and changes no message that was there; along any
    run of events, whatever the screens and whichever store calls are
    rejected, the log of every chat is extended at its end only and no
    chat document is removed. *)
Theorem store_only_grows (s : System) (es : list Event) (e : Event) (k : string) :
  (∃ extra, log (store (step s e)) k = (log (store s) k ++ extra)%list
            ∧ (length extra ≤ 1)%nat)
  ∧ log (store s) k `prefix_of` log (store (run s es)) k
  ∧ dom (chats (store s)) ⊆ dom (chats (store (run s es))).
Proof.
  assert (∀ s e, ∃ extra, log (store (step s e)) k = (log (store s) k ++ extra)%list
                          ∧ (length extra ≤ 1)%nat) as Hstep.
  { intros s0 e0.
    destruct (step_store s0 e0) as [-> | (sc & c & env & ms & _ & ->)].
    - exists []. rewrite app_nil_r. split; [done | cbn; lia].
    - destruct (onSend_log sc env ms {| db := store s0; ui := sc |} k)
        as (extra & He & Hl & _).
      by exists extra. }
  assert (∀ s e, dom (chats (store s)) ⊆ dom (chats (store (step s e)))) as Hdom.
  { intros s0 e0.
    destruct (step_store s0 e0) as [-> | (sc & c & env & ms & _ & ->)]; [done|].
    destruct (onSend_dom sc env ms {| db := store s0; ui := sc |})
      as [-> | (_ & _ & _ & ->)]; [done|].
    apply union_subseteq_r. }
  split; [apply Hstep|].
  unfold run. revert s. induction es as [|e' es IH]; intros s; [done|].
  cbn. destruct (IH (step s e')) as [Hlog Hchats]. split.
  - destruct (Hstep s e') as (extra & He & _).
    etrans; [|exact Hlog]. rewrite He. by apply prefix_app_r.
  - etrans; [apply (Hdom s e')|exact Hchats].
Qed.

(** X7: The look-up before a create does not keep two screens apart.  When
    the screens of the two participants both hold no chat document id
    and each makes a first send whose create is accepted, under different
    generated ids, the store afterwards holds a chat document under each
    of the two ids, both with the participants of the one pair. *)
Theorem first_sends_from_both_sides_create_two_chats
    (scA scB : Screen) (ua ub : User) (envA envB : Env) (mA mB : Message)
    (st : Store) :
  currentUser scA = Some ua → recipientId scA = Some (uid ub) → uid ub ≠ "" →
  currentUser scB = Some ub → recipientId scB = Some (uid ua) → uid ua ≠ "" →
  truthy (chatDocId scA) = false → truthy (chatDocId scB) = false →
  setDoc_rejects envA = false → setDoc_rejects envB = false →
  autoChatId envA ≠ autoChatId envB →
  let wA := (onSend scA envA [mA] {| db := st; ui := scA |}).2 in
  let wB := (onSend scB envB [mB] {| db := db wA; ui := scB |}).2 in
  ∃ dA dB,
    chats (db wB) !! autoChatId envA = Some dA
    ∧ chats (db wB) !! autoChatId envB = Some dB
    ∧ participants dA = participantsOf (uid ua) (uid ub)
    ∧ participants dB = participantsOf (uid ua) (uid ub).
Proof.
  intros HuA HrA HneB HuB HrB HneA HkA HkB HsA HsB Hids. cbn zeta.
  destruct (onSend_first_created scA envA ua (uid ub) mA [] {| db := st; ui := scA |}
              HuA HrA HneB HkA HsA) as [(dA & HdA & HpA) _].
  destruct (onSend_first_created scB envB ub (uid ua) mB []
              {| db := db (onSend scA envA [mA] {| db := st; ui := scA |}).2;
                 ui := scB |}
              HuB HrB HneA HkB HsB) as [(dB & HdB & HpB) Hother].
  exists dA, dB. split; [|split; [done|split; [done|]]].
  - by rewrite Hother.
  - by rewrite HpB, participantsOf_comm.
Qed.

(** * The properties at concrete inputs *)

Import Examples.

(** Membership in a list that has been computed. *)
Ltac find_in_list :=
  vm_compute;
  repeat first [apply list_elem_of_here | apply list_elem_of_further].

Lemma send_keeps_chat_identity_witness :
  ∃ d', chats (db (onSend aliceTalking (accepting "x" "m1" 5)
                     [outgoing alice "x1" "again"] talking).2) !! "chatA" = Some d'
        ∧ participants d' = participants chatADoc
        ∧ Firestore.createdAt d' = Firestore.createdAt chatADoc
        ∧ participantNames d' = participantNames chatADoc
        ∧ participantImages d' = participantImages chatADoc
        ∧ vehicleName d' = vehicleName chatADoc.
Proof.
  apply send_keeps_chat_identity; [vm_compute; reflexivity | left; reflexivity].
Defined.

Lemma second_send_reuses_chat_witness :
  let env1 := accepting "chatA" "m1" 100 in
  let env2 := accepting "chatX" "m2" 200 in
  let m1 := outgoing alice "x1" "hi" in
  let m2 := outgoing alice "x2" "there" in
  let w1 := (onSend (mount alice "u2" "Bob") env1 [m1] fresh).2 in
  let r2 := onSend (ui w1) env2 [m2] w1 in
  r2.1 = Fulfilled tt
  ∧ dom (chats (db r2.2)) = {[autoChatId env1]} ∪ dom (chats (db fresh))
  ∧ log (db r2.2) (autoChatId env1)
    = (log (db fresh) (autoChatId env1)
       ++ [newMessage alice (text m1) env1; newMessage alice (text m2) env2])%list
  ∧ lastMessageText <$> chats (db r2.2) !! autoChatId env1 = Some (text m2)
  ∧ chatDocId (ui r2.2) = Some (autoChatId env1).
Proof.
  apply (second_send_reuses_chat (mount alice "u2" "Bob") alice);
    (reflexivity || discriminate).
Defined.

Lemma send_after_rejected_create_witness :
  let env1 := createRejected "chatA" "m1" 100 in
  let env2 := accepting "chatX" "m2" 200 in
  let m1 := outgoing alice "x1" "hi" in
  let m2 := outgoing alice "x2" "there" in
  let r1 := onSend (mount alice "u2" "Bob") env1 [m1] fresh in
  let r2 := onSend (ui r1.2) env2 [m2] r1.2 in
  r1.1 = Threw (Rejected "setDoc")
  ∧ db r1.2 = db fresh
  ∧ chatDocId (ui r1.2) = Some (autoChatId env1)
  ∧ r2.1 = Threw (Rejected "updateDoc")
  ∧ chats (db r2.2) = chats (db fresh)
  ∧ log (db r2.2) (autoChatId env1)
    = (log (db fresh) (autoChatId env1) ++ [newMessage alice (text m2) env2])%list.
Proof.
  apply (send_after_rejected_create (mount alice "u2" "Bob") alice);
    (reflexivity || discriminate).
Defined.

Lemma lookup_finds_chat_of_pair_witness :
  match chatDocId (ui (resolve (mount bob "u1" "Alice") (store conversation))) with
  | Some k => ∃ d, chats (store conversation) !! k = Some d
                   ∧ participants d = participantsOf (uid bob) "u1"
  | None => ∀ k d, chats (store conversation) !! k = Some d →
                   participants d ≠ participantsOf (uid bob) "u1"
  end.
Proof.
  apply lookup_finds_chat_of_pair; (reflexivity || discriminate).
Defined.

Lemma created_chat_is_found_witness :
  chatDocId (ui (resolve (mount bob "u1" "Alice")
                   (db (onSend (mount alice "u2" "Bob") (accepting "chatA" "m1" 100)
                          [outgoing alice "x1" "hi"] fresh).2)))
  = Some "chatA".
Proof.
  apply (created_chat_is_found (mount alice "u2" "Bob") alice "u2"
           (accepting "chatA" "m1" 100) (outgoing alice "x1" "hi") [] fresh
           (mount bob "u1" "Alice") bob "u1");
    (reflexivity || discriminate).
Defined.

Lemma sent_message_is_shown_witness :
  let env := accepting "chatA" "m1" 100 in
  let m := outgoing alice "x1" "hi" in
  {| _id := autoMsgId env;
     text := text m;
     createdAt := Some (t_addDoc env);
     user := {| author_id := uid alice;
                author_name := Js.or (displayName alice) (email alice);
                author_avatar := Js.or (profileImage alice) None |} |}
  ∈ ChatScreen.messages
      (ui (messagesSnapshot listening (targetRef (mount alice "u2" "Bob") env)
             {| db := db (onSend (mount alice "u2" "Bob") env [m] fresh).2;
                ui := listening |}).2).
Proof.
  apply (sent_message_is_shown (mount alice "u2" "Bob") alice);
    try reflexivity.
  apply list_elem_of_here.
Defined.

Lemma messages_listener_shows_snapshot_witness :
  (onMessagesSnapshot [pendingDoc; datedDoc] fresh).1 = Fulfilled tt
  ∧ _id <$> ChatScreen.messages (ui (onMessagesSnapshot [pendingDoc; datedDoc] fresh).2)
    = doc_id <$> [pendingDoc; datedDoc]
  ∧ text <$> ChatScreen.messages (ui (onMessagesSnapshot [pendingDoc; datedDoc] fresh).2)
    = data_text <$> [pendingDoc; datedDoc]
  ∧ db (onMessagesSnapshot [pendingDoc; datedDoc] fresh).2 = db fresh.
Proof.
  apply messages_listener_shows_snapshot.
  repeat constructor; discriminate.
Defined.

Lemma messages_listener_drops_snapshot_witness :
  failed (onMessagesSnapshot [datedDoc; malformedDoc; pendingDoc] talking).1 = true
  ∧ (onMessagesSnapshot [datedDoc; malformedDoc; pendingDoc] talking).2 = talking.
Proof.
  apply messages_listener_drops_snapshot.
  apply Exists_cons_tl, Exists_cons_hd. by exists "2024-01-01".
Defined.

Lemma chat_screen_without_user_is_inert_witness :
  let r := ChatAuth.onAuthStateChanged ∅ false None openedForBob in
  let w := {| db := store conversation; ui := ChatAuth.screen r.2 |} in
  let env := accepting "chatA" "m1" 100 in
  ((None : option ChatAuth.AuthUser) = None →
     r.1 = Fulfilled tt ∧ ChatAuth.loading r.2 = false
     ∧ ChatAuth.replaced r.2 = (ChatAuth.replaced openedForBob ++ ["/login"])%list)
  ∧ ((None : option ChatAuth.AuthUser) ≠ None →
     failed r.1 = true ∧ ChatAuth.loading r.2 = ChatAuth.loading openedForBob
     ∧ ChatAuth.replaced r.2 = ChatAuth.replaced openedForBob)
  ∧ chatsSnapshot (ChatAuth.screen r.2) w = (Fulfilled tt, w)
  ∧ onSend (ChatAuth.screen r.2) env [outgoing alice "x1" "hi"] w = (Fulfilled tt, w).
Proof.
  apply (chat_screen_without_user_is_inert ∅ openedForBob None false);
    [reflexivity | left; reflexivity].
Defined.

Lemma user_without_profile_is_named_by_email_witness :
  let env := accepting "chatA" "m1" 100 in
  let m := outgoing alice "x1" "hi" in
  let r := ChatAuth.onAuthStateChanged ∅ false (Some aliceAuth) openedForBob in
  let sc := ChatAuth.screen r.2 in
  let w' := (onSend sc env [m] {| db := Firestore.empty; ui := sc |}).2 in
  let name := if truthy (ChatAuth.auth_email aliceAuth)
              then ChatAuth.auth_email aliceAuth else None in
  r.1 = Fulfilled tt ∧ ChatAuth.loading r.2 = false
  ∧ ChatAuth.replaced r.2 = ChatAuth.replaced openedForBob
  ∧ last (log (db w') (autoChatId env))
    = Some {| msg_id := autoMsgId env; msg_text := text m;
              msg_createdAt := t_addDoc env;
              senderId := ChatAuth.auth_uid aliceAuth;
              senderName := name; senderImage := None |}
  ∧ ∃ d, chats (db w') !! autoChatId env = Some d
         ∧ participantNames d !! ChatAuth.auth_uid aliceAuth = Some name.
Proof.
  apply (user_without_profile_is_named_by_email ∅ openedForBob aliceAuth "u2");
    (reflexivity || discriminate).
Defined.

Lemma empty_search_lists_everyone_witness :
  NewChatSearch.filteredUsers (λ s, s) ""
    (NewChatScreen.fetchUsers (Some "u1") people)
  = Fulfilled (NewChatScreen.fetchUsers (Some "u1") people).
Proof.
  apply empty_search_lists_everyone; [reflexivity|].
  repeat constructor. by eexists.
Defined.

Lemma unnamed_user_breaks_search_witness :
  failed (NewChatSearch.filteredUsers (λ s, s) "bob"
            (NewChatScreen.fetchUsers (Some "u1") (people ++ [nameless]))) = true.
Proof.
  apply (unnamed_user_breaks_search _ _ _ _ nameless);
    try (reflexivity || discriminate).
  apply elem_of_app. right. apply list_elem_of_here.
Defined.

Lemma fetched_bookings_are_the_users_witness :
  let listed := History.bookings
                  (History.ui (History.fetchBookings plainHost (browsing "All") None
                                 (atRentals (browsing "All")))) in
  (∀ b, b ∈ listed ↔
        ∃ data,
          History.bookingDocs (History.db (atRentals (browsing "All"))) !! History.id b
          = Some data
          ∧ History.data_userId data = Some (History.uid renter)
          ∧ (History.selectedStatus (browsing "All") = "All"
             ∨ History.data_status data = Some (History.selectedStatus (browsing "All")))
          ∧ b = History.toBooking plainHost (History.id b) data)
  ∧ NoDup (History.id <$> listed).
Proof.
  apply (fetched_bookings_are_the_users plainHost (browsing "All") renter).
  reflexivity.
Defined.

Lemma booking_without_status_is_pending_only_under_all_witness :
  (∃ b, b ∈ History.bookings
              (History.ui (History.fetchBookings plainHost (browsing "All") None
                             (atRentals (browsing "All"))))
        ∧ History.id b = "b2" ∧ History.status b = "Pending")
  ∧ ∀ b, b ∈ History.bookings
               (History.ui (History.fetchBookings plainHost (browsing "Pending") None
                              (atRentals (browsing "All")))) →
         History.id b ≠ "b2".
Proof.
  apply (booking_without_status_is_pending_only_under_all plainHost
           (browsing "All") (browsing "Pending") renter
           (atRentals (browsing "All")) "b2" (rental None));
    reflexivity.
Defined.

Lemma bookings_of_a_status_filter_cannot_be_reviewed_witness :
  let b := History.toBooking plainHost "b3" (rental (Some "Completed")) in
  History.status b = History.selectedStatus (browsing "Completed")
  ∧ History.getStatusColor (History.status b) = "#9E9E9E"
  ∧ History.footer b = [History.ViewDetails; History.Contact].
Proof.
  apply (bookings_of_a_status_filter_cannot_be_reviewed plainHost
           (browsing "Completed") renter (atRentals (browsing "Completed")));
    [reflexivity | | discriminate | ].
  - find_in_list.
  - find_in_list.
Defined.

Lemma submit_without_rating_writes_nothing_witness :
  let closure := History.setReviewForm true
                   (Some (History.toBooking plainHost "b1" (rental (Some "completed"))))
                   0 "fine" (browsing "All") in
  let w' := History.handleSubmitReview plainHost closure (reviewAccepted "r1")
              (atRentals closure) in
  History.db w' = History.db (atRentals closure)
  ∧ History.ui w' = History.ui (atRentals closure)
  ∧ History.alerts w'
    = (History.alerts (atRentals closure)
       ++ [("Error", "Please provide a rating and a review.")])%list.
Proof.
  apply submit_without_rating_writes_nothing. right. reflexivity.
Defined.

Lemma accepted_review_is_stored_witness :
  let booking := History.toBooking plainHost "b1" (rental (Some "completed")) in
  let env := reviewAccepted "r1" in
  let w := atRentals reviewing in
  let w' := History.handleSubmitReview plainHost reviewing env w in
  History.reviews (History.db w')
  = (History.reviews (History.db w)
     ++ [ {| History.review_id := History.autoReviewId env;
             History.review_bookingId := History.id booking;
             History.review_userId := History.uid renter;
             History.review_vehicleId := History.vehicleId booking;
             History.review_ownerId := History.ownerId booking;
             History.review_rating := History.rating reviewing;
             History.review_text := History.reviewText reviewing;
             History.review_timestamp := History.now env |} ])%list
  ∧ History.bookingDocs (History.db w')
    = <[History.id booking := History.markReviewed (rental (Some "completed"))]>
        (History.bookingDocs (History.db w))
  ∧ History.reviewModalVisible (History.ui w') = false
  ∧ History.bookingToReview (History.ui w') = None
  ∧ History.rating (History.ui w') = 0
  ∧ History.reviewText (History.ui w') = "".
Proof.
  apply (accepted_review_is_stored plainHost reviewing (reviewAccepted "r1")
           (atRentals reviewing) _ renter (rental (Some "completed")));
    (reflexivity || discriminate).
Defined.

Lemma reviewed_booking_cannot_be_reviewed_again_witness :
  let b := History.toBooking plainHost "b1"
             (History.markReviewed (rental (Some "completed"))) in
  let w' := History.handleSubmitReview plainHost reviewing (reviewAccepted "r1")
              (atRentals reviewing) in
  History.hasReviewed b = true
  ∧ ¬ (History.LeaveReview ∈ History.footer b)
  ∧ History.reviewModalVisible (History.ui (History.handleReviewPress b w')) = false
  ∧ History.bookingToReview (History.ui (History.handleReviewPress b w')) = None
  ∧ History.alerts (History.handleReviewPress b w')
    = (History.alerts w'
       ++ [("Already Reviewed",
            "You have already submitted a review for this booking.")])%list.
Proof.
  apply (reviewed_booking_cannot_be_reviewed_again plainHost reviewing
           (reviewAccepted "r1") (atRentals reviewing)
           (History.toBooking plainHost "b1" (rental (Some "completed")))
           renter (rental (Some "completed")));
    try (reflexivity || discriminate).
  find_in_list.
Defined.

Lemma review_is_stored_twice_after_failed_marking_witness :
  let booking := History.toBooking plainHost "b1" (rental (Some "completed")) in
  let w := atRentals reviewing in
  let w1 := History.handleSubmitReview plainHost reviewing (markingRejected "r1") w in
  let w2 := History.handleSubmitReview plainHost reviewing (reviewAccepted "r2") w1 in
  History.bookingDocs (History.db w1) = History.bookingDocs (History.db w)
  ∧ History.ui w1 = History.ui w
  ∧ History.alerts w1
    = (History.alerts w
       ++ [("Error", String.append "Failed to submit review: " "unavailable")])%list
  ∧ ∃ r1 r2,
      History.reviews (History.db w2)
      = (History.reviews (History.db w) ++ [r1; r2])%list
      ∧ History.review_bookingId r1 = History.id booking
      ∧ History.review_bookingId r2 = History.id booking
      ∧ History.review_userId r1 = History.uid renter
      ∧ History.review_userId r2 = History.uid renter
      ∧ History.review_id r1 = History.autoReviewId (markingRejected "r1")
      ∧ History.review_id r2 = History.autoReviewId (reviewAccepted "r2").
Proof.
  apply (review_is_stored_twice_after_failed_marking plainHost reviewing
           (markingRejected "r1") (reviewAccepted "r2") (atRentals reviewing)
           _ renter (rental (Some "completed")) "unavailable");
    (reflexivity || discriminate).
Defined.

Lemma first_sends_from_both_sides_create_two_chats_witness :
  let scA := mount alice "u2" "Bob" in
  let scB := mount bob "u1" "Alice" in
  let envA := accepting "chatA" "m1" 100 in
  let envB := accepting "chatB" "m2" 100 in
  let wA := (onSend scA envA [outgoing alice "x1" "hi"]
               {| db := Firestore.empty; ui := scA |}).2 in
  let wB := (onSend scB envB [outgoing bob "x2" "yo"] {| db := db wA; ui := scB |}).2 in
  ∃ dA dB,
    chats (db wB) !! autoChatId envA = Some dA
    ∧ chats (db wB) !! autoChatId envB = Some dB
    ∧ participants dA = participantsOf (uid alice) (uid bob)
    ∧ participants dB = participantsOf (uid alice) (uid bob).
Proof.
  apply (first_sends_from_both_sides_create_two_chats
           (mount alice "u2" "Bob") (mount bob "u1" "Alice") alice bob);
    (reflexivity || discriminate).
Defined.

(** * The pairing key, pairing errors and the creation of records *)

(** C2, as the specification states it, fails for the key a record is
    created under.  On two occasions Alice makes her first send to Bob
    against the same empty store; the record is created under the id
    generated for that send, ["chatA"] on one occasion and ["zzz"] on
    the other, although the pair, and with it the participants written
    to the record, is the same. *)
Lemma created_record_id_differs_between_occasions :
  let sc := mount alice "u2" "Bob" in
  let once := (onSend sc (accepting "chatA" "m1" 100) [outgoing alice "x1" "hi"] fresh).2 in
  let again := (onSend sc (accepting "zzz" "m1" 100) [outgoing alice "x1" "hi"] fresh).2 in
  (λ kv, (kv.1, participants kv.2)) <$> map_to_list (chats (db once))
    = [("chatA", ["u1"; "u2"])]
  ∧ (λ kv, (kv.1, participants kv.2)) <$> map_to_list (chats (db again))
    = [("zzz", ["u1"; "u2"])]
  ∧ chatDocId (ui once) = Some "chatA"
  ∧ chatDocId (ui again) = Some "zzz"
  ∧ chatDocId (ui once) ≠ chatDocId (ui again).
Proof. vm_compute. repeat split; discriminate. Qed.

(** C2, as the code has it: the key a record is located under is the
    sorted pair of the two participant ids, the same whichever of the
    two is the local user.  Against one store the screens of both
    participants resolve to the same document id; that id is the id of
    a chat document of the pair, and there is none exactly when the
    store holds no chat document of the pair.  The id a first send
    creates the record under is the one generated for that send; the
    record carries the sorted pair as its participants. *)
Theorem pairing_key_locates_the_record
    (scA scB : Screen) (ua ub : User) (st : Store) (env : Env) (m : Message)
    (rest : list Message) :
  uid ua ≠ "" → uid ub ≠ "" →
  currentUser scA = Some ua → recipientId scA = Some (uid ub) →
  currentUser scB = Some ub → recipientId scB = Some (uid ua) →
  participantsOf (uid ua) (uid ub) = participantsOf (uid ub) (uid ua)
  ∧ chatDocId (ui (resolve scA st)) = chatDocId (ui (resolve scB st))
  ∧ (∀ k, chatDocId (ui (resolve scA st)) = Some k →
          ∃ d, chats st !! k = Some d
               ∧ participants d = participantsOf (uid ua) (uid ub))
  ∧ (chatDocId (ui (resolve scA st)) = None
     ↔ chatsOf st (participantsOf (uid ua) (uid ub)) = [])
  ∧ (truthy (chatDocId scA) = false → setDoc_rejects env = false →
     ∃ d, chats (db (onSend scA env (m :: rest) {| db := st; ui := scA |}).2)
            !! autoChatId env = Some d
          ∧ participants d = participantsOf (uid ua) (uid ub)).
Proof.
  intros Ha Hb HuA HrA HuB HrB.
  rewrite (resolve_chatDocId scA st ua (uid ub) HuA HrA Hb).
  rewrite (resolve_chatDocId scB st ub (uid ua) HuB HrB Ha).
  rewrite (participantsOf_comm (uid ub) (uid ua)).
  set (p := participantsOf (uid ua) (uid ub)).
  split; [done|]. split; [done|]. split; [|split].
  - intros k Hk.
    destruct (head (chatsQuery st p)) as [[k' d]|] eqn:E; [|done].
    injection Hk as <-. exists d.
    by apply (elem_of_chatsOf st p), chatsQuery_head_Some.
  - split.
    + intros Hnone. apply chatsQuery_head_None.
      by destruct (head (chatsQuery st p)).
    + intros Hnil. unfold chatsQuery. by rewrite Hnil.
  - intros Hk Hset.
    by destruct (onSend_first_created scA env ua (uid ub) m rest
                   {| db := st; ui := scA |} HuA HrA Hb Hk Hset) as [Hd _].
Qed.

Lemma pairing_key_locates_the_record_witness :
  let scA := mount alice "u2" "Bob" in
  let scB := mount bob "u1" "Alice" in
  let st := store conversation in
  let env := accepting "chatX" "m1" 100 in
  participantsOf "u1" "u2" = participantsOf "u2" "u1"
  ∧ chatDocId (ui (resolve scA st)) = chatDocId (ui (resolve scB st))
  ∧ (∀ k, chatDocId (ui (resolve scA st)) = Some k →
          ∃ d, chats st !! k = Some d
               ∧ participants d = participantsOf "u1" "u2")
  ∧ (chatDocId (ui (resolve scA st)) = None
     ↔ chatsOf st (participantsOf "u1" "u2") = [])
  ∧ (truthy (chatDocId scA) = false → setDoc_rejects env = false →
     ∃ d, chats (db (onSend scA env [outgoing alice "x1" "hi"]
                       {| db := st; ui := scA |}).2)
            !! autoChatId env = Some d
          ∧ participants d = participantsOf "u1" "u2").
Proof.
  apply (pairing_key_locates_the_record (mount alice "u2" "Bob")
           (mount bob "u1" "Alice") alice bob);
    (discriminate || reflexivity).
Defined.






(** X17: A chat opened from the list pairs two different users.  When
    an offered user is tapped and the chat screen opens on the route
    pushed, with the same user signed in, the recipient of the screen is
    the tapped user and, provided the signed-in user's document in
    [users] has no [uid] field of its own or one equal to the auth uid,
    the current user's uid is the auth uid and the participants of the
    chat are two different ids. *)
Theorem chat_opened_from_list_pairs_two_users
    (users : gmap string ChatAuth.Profile) (user : ChatAuth.AuthUser)
    (docs : list NewChatScreen.UserDoc) (item : NewChatScreen.UserItem) :
  ChatAuth.auth_uid user ≠ "" →
  item ∈ NewChatScreen.fetchUsers (Some (ChatAuth.auth_uid user)) docs →
  (∀ data, users !! ChatAuth.auth_uid user = Some data →
           ChatAuth.profile_uid data = None
           ∨ ChatAuth.profile_uid data = Some (ChatAuth.auth_uid user)) →
  let route := NewChatSearch.onPressUser item in
  let sh := ChatAuth.opened (Some (NewChatSearch.recipientId route))
              (NewChatSearch.recipientName route)
              (NewChatSearch.recipientImage route) None in
  let sc := ChatAuth.screen
              (ChatAuth.onAuthStateChanged users false (Some user) sh).2 in
  ∃ u, currentUser sc = Some u
       ∧ uid u = ChatAuth.auth_uid user
       ∧ recipientId sc = Some (NewChatScreen.id item)
       ∧ NewChatScreen.id item ≠ uid u
       ∧ NoDup (participantsOf (uid u) (NewChatScreen.id item)).
Proof.
  intros Hne Hitem Hprofile. cbn zeta.
  apply elem_of_fetchUsers in Hitem as (d & -> & _ & Hd); [|done].
  rewrite toItem_id in *.
  unfold ChatAuth.onAuthStateChanged.
  set (u := match users !! ChatAuth.auth_uid user with
            | Some data => ChatAuth.withProfile user data
            | None => ChatAuth.withoutProfile user
            end).
  assert (uid u = ChatAuth.auth_uid user) as Huid.
  { unfold u. destruct (users !! ChatAuth.auth_uid user) as [data|] eqn:E; [|done].
    unfold ChatAuth.withProfile. cbn.
    by destruct (Hprofile data eq_refl) as [-> | ->]. }
  exists u. split; [done|]. split; [done|]. split; [done|].
  rewrite Huid. split; [done|].
  rewrite participantsOf_unfold.
  destruct (before _ _); apply NoDup_cons; (split; [|apply NoDup_singleton]);
    rewrite list_elem_of_singleton; congruence.
Qed.

Lemma chat_opened_from_list_pairs_two_users_witness :
  let item := NewChatScreen.toItem nameless in
  let users : gmap string ChatAuth.Profile :=
    {["u1" := {| ChatAuth.profile_uid := Some "u1";
                 ChatAuth.profile_displayName := Some "Alice";
                 ChatAuth.profile_email := None;
                 ChatAuth.profile_profileImage := None |}]} in
  let route := NewChatSearch.onPressUser item in
  let sh := ChatAuth.opened (Some (NewChatSearch.recipientId route))
              (NewChatSearch.recipientName route)
              (NewChatSearch.recipientImage route) None in
  let sc := ChatAuth.screen
              (ChatAuth.onAuthStateChanged users false (Some aliceAuth) sh).2 in
  ∃ u, currentUser sc = Some u
       ∧ uid u = ChatAuth.auth_uid aliceAuth
       ∧ recipientId sc = Some (NewChatScreen.id item)
       ∧ NewChatScreen.id item ≠ uid u
       ∧ NoDup (participantsOf (uid u) (NewChatScreen.id item)).
Proof.
  apply (chat_opened_from_list_pairs_two_users _ aliceAuth (people ++ [nameless]));
    [discriminate | find_in_list |].
  intros data Hdata. vm_compute in Hdata. injection Hdata as <-. by right.
Defined.
